(** * FileSoftLink: a shallow embedding of [plugins/filesoftlink/__init__.py]

    The plugin mirrors source directory trees into destination trees by
    symbolic links or copies.  This development embeds the configuration
    parser ([init_plugin]), the event filter ([event_handler]), the
    single-file materializer ([__handle_file]), the deletion propagator
    ([__handle_delete]) and the full resync ([sync_all]) over an explicit
    model of the filesystem, and states the properties of the design
    document over that embedding.

    Conventions.
    - Python exceptions are values of [exn]; a pure fallible computation
      returns [result], a computation that touches the filesystem or the
      log runs in the state-and-exception monad [M].
    - [pathlib] is modelled in its POSIX flavour: a [Path] is its anchor
      (none, [/] or [//]) and the list of its components.
    - The filesystem is a finite map from paths to nodes: a path names the
      entry stored under it, and symbolic links are followed at its final
      component.  The directories on the way to it are taken as they are
      written.
    - The plugin object is threaded through [init_plugin] as a value; the
      methods that run afterwards only read it.
    - What the source imports from outside the repository is a parameter
      of the engine: [SystemUtils.is_windows()], the extension lists
      [MediaType.ALL_VIDEO] and [MediaType.ALL_SUBTITLE], the truth value of
      [re.findall(..., re.IGNORECASE)], [str.lower], and the nesting test
      of the Windows flavour of [pathlib]. *)

From stdpp Require Import base strings list gmap.
From Stdlib Require Import ZArith Ascii String Lia.
From Stdlib Require Import Init.Byte.

Local Open Scope string_scope.
Local Open Scope Z_scope.

(** ** Exceptions and results *)

Inductive exn :=
| AttributeError
| TypeError
| ValueError
| IndexError
| FileExistsError
| FileNotFoundError
| NotADirectoryError
| IsADirectoryError
| SameFileError
| OSError
| ReError
| SchedulerNotRunningError.

Inductive result (A : Type) :=
| Ok (a : A)
| Err (e : exn).
Arguments Ok {A} a.
Arguments Err {A} e.

Definition result_bind {A B} (r : result A) (k : A -> result B) : result B :=
  match r with
  | Ok a => k a
  | Err e => Err e
  end.

(** [[f(x) for x in l]]: the elements are evaluated left to right and the
    first exception aborts the comprehension. *)
Fixpoint result_mapM {A B} (f : A -> result B) (l : list A) : result (list B) :=
  match l with
  | [] => Ok []
  | x :: l' =>
      result_bind (f x) (fun y =>
      result_bind (result_mapM f l') (fun ys => Ok (y :: ys)))
  end.

(** ** Python strings *)

Module PyStr.

(** [s.split(sep)] for a one-character separator: never empty. *)
Fixpoint split (sep : ascii) (s : string) : list string :=
  match s with
  | EmptyString => [EmptyString]
  | String c s' =>
      if Ascii.eqb c sep then EmptyString :: split sep s'
      else match split sep s' with
           | [] => [String c EmptyString]
           | x :: xs => String c x :: xs
           end
  end.

(** [s.count(sep)] for a one-character separator. *)
Fixpoint count (sep : ascii) (s : string) : nat :=
  match s with
  | EmptyString => 0%nat
  | String c s' => ((if Ascii.eqb c sep then 1 else 0) + count sep s')%nat
  end.

(** [sep.join(l)] *)
Fixpoint join (sep : string) (l : list string) : string :=
  match l with
  | [] => EmptyString
  | [x] => x
  | x :: l' => x +:+ sep +:+ join sep l'
  end.

(** [a in s] for two strings. *)
Fixpoint contains (a s : string) : bool :=
  String.prefix a s ||
  match s with
  | EmptyString => false
  | String _ s' => contains a s'
  end.

(** [s.rfind(c)]: the index of the last occurrence, if any. *)
Fixpoint rfind (c : ascii) (s : string) : option nat :=
  match s with
  | EmptyString => None
  | String d s' =>
      match rfind c s' with
      | Some i => Some (S i)
      | None => if Ascii.eqb d c then Some 0%nat else None
      end
  end.

(** [s[i:]] *)
Definition from (i : nat) (s : string) : string :=
  String.substring i (String.length s - i) s.

(** A reference lower-casing that folds the ASCII letters only. *)
Definition lower_ascii_char (c : ascii) : ascii :=
  let n := nat_of_ascii c in
  if ((65 <=? n) && (n <=? 90))%nat then ascii_of_nat (n + 32) else c.

Fixpoint lower_ascii (s : string) : string :=
  match s with
  | EmptyString => EmptyString
  | String c s' => String (lower_ascii_char c) (lower_ascii s')
  end.

End PyStr.

(** ** pathlib, POSIX flavour *)

(** How a path starts: with nothing, with one slash, or with exactly two
    slashes, which pathlib keeps apart from one; three or more read as
    one. *)
Inductive anchor_kind :=
| Relative
| Root
| Double_root.

Global Instance anchor_kind_eq_dec : EqDecision anchor_kind.
Proof. solve_decision. Defined.

Record Path := mkPath { anchor : anchor_kind; parts : list string }.

Global Instance Path_eq_dec : EqDecision Path.
Proof. solve_decision. Defined.

Definition anchor_code (a : anchor_kind) : nat :=
  match a with
  | Relative => 0
  | Root => 1
  | Double_root => 2
  end.

Definition anchor_of_code (n : nat) : anchor_kind :=
  match n with
  | O => Relative
  | S O => Root
  | _ => Double_root
  end.

Global Instance Path_countable : Countable Path :=
  inj_countable' (fun p => (anchor_code (anchor p), parts p))
                 (fun ap => mkPath (anchor_of_code (fst ap)) (snd ap))
                 (fun p => match p with
                           | mkPath Relative _ => eq_refl
                           | mkPath Root _ => eq_refl
                           | mkPath Double_root _ => eq_refl
                           end).

Module PurePath.

Definition slash : ascii := "/"%char.

Definition keep_component (c : string) : bool :=
  negb (String.eqb c "") && negb (String.eqb c ".").

(** The anchor of a string: [//] only when a third slash does not
    follow. *)
Definition anchor_of_str (s : string) : anchor_kind :=
  match s with
  | String c1 s1 =>
      if Ascii.eqb c1 slash then
        match s1 with
        | String c2 s2 =>
            if Ascii.eqb c2 slash then
              match s2 with
              | String c3 _ => if Ascii.eqb c3 slash then Root else Double_root
              | EmptyString => Double_root
              end
            else Root
        | EmptyString => Root
        end
      else Relative
  | EmptyString => Relative
  end.

(** [Path(s)]: empty and [.] components are dropped. *)
Definition of_str (s : string) : Path :=
  mkPath (anchor_of_str s) (List.filter keep_component (PyStr.split slash s)).

(** [str(p)] *)
Definition to_str (p : Path) : string :=
  match anchor p with
  | Root => "/" +:+ PyStr.join "/" (parts p)
  | Double_root => "//" +:+ PyStr.join "/" (parts p)
  | Relative =>
      match parts p with
      | [] => "."
      | _ => PyStr.join "/" (parts p)
      end
  end.

Fixpoint is_prefix (l1 l2 : list string) : bool :=
  match l1, l2 with
  | [], _ => true
  | x :: l1', y :: l2' => String.eqb x y && is_prefix l1' l2'
  | _ :: _, [] => false
  end.

(** [p.is_relative_to(other)]: same anchor, and the components of [other]
    lead those of [p]. *)
Definition is_relative_to (p other : Path) : bool :=
  bool_decide (anchor p = anchor other) && is_prefix (parts other) (parts p).

(** [p.relative_to(other)]: [ValueError] unless [p] lies under [other]. *)
Definition relative_to (p other : Path) : result Path :=
  if is_relative_to p other
  then Ok (mkPath Relative (drop (List.length (parts other)) (parts p)))
  else Err ValueError.

(** [p.joinpath(q)]: an anchored [q] replaces [p]. *)
Definition joinpath (p q : Path) : Path :=
  match anchor q with
  | Relative => mkPath (anchor p) (parts p ++ parts q)
  | _ => q
  end.

(** [p.parent] *)
Definition parent (p : Path) : Path :=
  mkPath (anchor p) (removelast (parts p)).

(** [p.name] *)
Definition name (p : Path) : string := List.last (parts p) "".

(** [p.suffix]: the last dot of the name and what follows, unless that dot
    is the first or the last character of the name. *)
Definition suffix (p : Path) : string :=
  let n := name p in
  match PyStr.rfind "."%char n with
  | Some i =>
      if ((0 <? i) && (i <? String.length n - 1))%nat then PyStr.from i n else ""
  | None => ""
  end.

End PurePath.


(** ** The filesystem *)

Inductive node :=
| File (data : list byte)
| Dir
| Symlink (target : Path).

Module FS.

(** The kernel gives up after this many links ([ELOOP]). *)
Definition max_links : nat := 40.

(** Size reported for a directory. *)
Definition dir_size : Z := 4096.

(** The entry a path names: the kernel reads a leading [//] as [/]. *)
Definition entry (p : Path) : Path :=
  match anchor p with
  | Double_root => mkPath Root (parts p)
  | _ => p
  end.

(** [os.lstat]: the node at [p] itself.  A path without components is the
    root (or the working directory) and always a directory. *)
Definition lstat (fs : gmap Path node) (p : Path) : option node :=
  match parts p with
  | [] => Some Dir
  | _ => fs !! entry p
  end.

(** Follow the links at the final component; [None] is a link loop. *)
Fixpoint follow (fuel : nat) (fs : gmap Path node) (p : Path) : option Path :=
  match lstat fs p with
  | Some (Symlink t) =>
      match fuel with
      | O => None
      | S n => follow n fs (PurePath.joinpath (PurePath.parent p) t)
      end
  | _ => Some p
  end.

(** [os.stat]: the node [p] resolves to. *)
Definition stat (fs : gmap Path node) (p : Path) : option node :=
  match follow max_links fs p with
  | Some q => lstat fs q
  | None => None
  end.

(** [Path.exists()], [Path.is_file()], [Path.is_dir()]: all follow links and
    answer [False] on a dangling link. *)
Definition exists_ (fs : gmap Path node) (p : Path) : bool :=
  match stat fs p with
  | Some _ => true
  | None => false
  end.

Definition is_file (fs : gmap Path node) (p : Path) : bool :=
  match stat fs p with
  | Some (File _) => true
  | _ => false
  end.

Definition is_dir (fs : gmap Path node) (p : Path) : bool :=
  match stat fs p with
  | Some Dir => true
  | _ => false
  end.

(** [os.path.getsize] of what a [Path] names. *)
Definition getsize (fs : gmap Path node) (p : Path) : result Z :=
  match stat fs p with
  | Some (File d) => Ok (Z.of_nat (List.length d))
  | Some _ => Ok dir_size
  | None => Err FileNotFoundError
  end.

(** A path string that ends in a slash, or in a slash and a dot: the
    kernel resolves it as a directory. *)
Definition as_directory (s : string) : bool :=
  let last := List.last (PyStr.split PurePath.slash s) "" in
  String.eqb last "" || String.eqb last ".".

(** [os.path.getsize(s)] of a string, which goes to the kernel as it is:
    the empty string names nothing, and a regular file written as a
    directory is refused. *)
Definition getsize_str (fs : gmap Path node) (s : string) : result Z :=
  if String.eqb s "" then Err FileNotFoundError
  else if as_directory s && is_file fs (PurePath.of_str s) then Err NotADirectoryError
  else getsize fs (PurePath.of_str s).

(** [Path.unlink()]: removes the entry itself, never the referent. *)
Definition unlink (fs : gmap Path node) (p : Path) : result (gmap Path node) :=
  match lstat fs p with
  | None => Err FileNotFoundError
  | Some Dir => Err IsADirectoryError
  | Some _ => Ok (delete (entry p) fs)
  end.

(** The check every creating call makes on the parent directory. *)
Definition parent_ready (fs : gmap Path node) (p : Path) : result unit :=
  match stat fs (PurePath.parent p) with
  | Some Dir => Ok tt
  | Some _ => Err NotADirectoryError
  | None => Err FileNotFoundError
  end.

(** [os.mkdir] *)
Definition os_mkdir (fs : gmap Path node) (p : Path) : result (gmap Path node) :=
  match lstat fs p with
  | Some _ => Err FileExistsError
  | None => result_bind (parent_ready fs p) (fun _ => Ok (<[entry p := Dir]> fs))
  end.

(** [Path.mkdir(parents=False, exist_ok=True)] *)
Definition mkdir_exist_ok (fs : gmap Path node) (p : Path) : result (gmap Path node) :=
  match os_mkdir fs p with
  | Ok fs' => Ok fs'
  | Err FileNotFoundError => Err FileNotFoundError
  | Err e => if is_dir fs p then Ok fs else Err e
  end.

(** [Path.mkdir(parents=True, exist_ok=True)]: try the directory, on a
    missing parent create the parent first and try again. *)
Fixpoint mkdir_parents_go (fuel : nat) (fs : gmap Path node) (p : Path)
  : result (gmap Path node) :=
  match os_mkdir fs p with
  | Ok fs' => Ok fs'
  | Err FileNotFoundError =>
      match fuel with
      | O => Err FileNotFoundError
      | S n =>
          if decide (PurePath.parent p = p) then Err FileNotFoundError
          else result_bind (mkdir_parents_go n fs (PurePath.parent p))
                           (fun fs1 => mkdir_exist_ok fs1 p)
      end
  | Err e => if is_dir fs p then Ok fs else Err e
  end.

Definition mkdir_parents (fs : gmap Path node) (p : Path) : result (gmap Path node) :=
  mkdir_parents_go (S (List.length (parts p))) fs p.

(** [os.symlink(src, dst)] *)
Definition symlink (fs : gmap Path node) (src dst : Path) : result (gmap Path node) :=
  match lstat fs dst with
  | Some _ => Err FileExistsError
  | None => result_bind (parent_ready fs dst) (fun _ => Ok (<[entry dst := Symlink src]> fs))
  end.

(** [open(p, "rb").read()] *)
Definition read_bytes (fs : gmap Path node) (p : Path) : result (list byte) :=
  match stat fs p with
  | Some (File d) => Ok d
  | Some _ => Err IsADirectoryError
  | None => Err FileNotFoundError
  end.

(** [open(p, "wb").write(d)]: written through the links at [p]. *)
Definition write_bytes (fs : gmap Path node) (p : Path) (d : list byte)
  : result (gmap Path node) :=
  match follow max_links fs p with
  | None => Err OSError
  | Some q =>
      match lstat fs q with
      | Some Dir => Err IsADirectoryError
      | Some _ => Ok (<[entry q := File d]> fs)
      | None => result_bind (parent_ready fs q) (fun _ => Ok (<[entry q := File d]> fs))
      end
  end.

(** [os.path.samefile] as [shutil] uses it: false when either is missing. *)
Definition samefile (fs : gmap Path node) (a b : Path) : bool :=
  match follow max_links fs a, follow max_links fs b with
  | Some qa, Some qb =>
      bool_decide (entry qa = entry qb) && match lstat fs qa with Some _ => true | None => false end
  | _, _ => false
  end.

(** [shutil.copy(src, dst)]: into [dst] when it is a directory, else onto
    it; the bytes of the file [src] resolves to are written. *)
Definition copy (fs : gmap Path node) (src dst : Path) : result (gmap Path node) :=
  let dst' :=
    if is_dir fs dst
    then PurePath.joinpath dst (mkPath Relative [PurePath.name src])
    else dst in
  if samefile fs src dst' then Err SameFileError
  else result_bind (read_bytes fs src) (fun d => write_bytes fs dst' d).

(** [Path(root).rglob("*")]: every entry strictly below [root], in the
    enumeration order of the map, each written from [root]. *)
Definition rglob (fs : gmap Path node) (root : Path) : list Path :=
  (fun p => mkPath (anchor root) (parts p)) <$>
  List.filter
    (fun p => PurePath.is_relative_to p (entry root)
              && negb (bool_decide (p = entry root)))
    (fst <$> map_to_list fs).

End FS.

(** ** The world: filesystem plus everything the plugin reports *)

(** The [text] argument of [event_handler]: one of the three literals the
    watchdog callbacks pass. *)
Inductive event_text :=
| Text_create   (* on_created *)
| Text_move     (* on_moved *)
| Text_delete.  (* on_deleted *)

Global Instance event_text_eq_dec : EqDecision event_text.
Proof. solve_decision. Defined.

Inductive message :=
| Msg_event (event_path : string) (text : event_text)
| Msg_oversize (event_path : string)
| Msg_excluded (event_path : string)
| Msg_event_failed (event_path : string) (text : event_text) (e : exn)
| Msg_linked_media (path target_file : Path)
| Msg_copied (path target_file : Path)
| Msg_linked (path target_file : Path)
| Msg_deleted (target_file : Path)
| Msg_sync_start (mon_path : string)
| Msg_nested (target_path : Path) (mon_path : string)
| Msg_monitor_delayed (mon_path : string)
| Msg_run_once.

Inductive output :=
| Lock_acquire
| Lock_release
| Log_info (m : message)
| Log_warn (m : message)
| Log_error (m : message)
| System_message (m : message).

Record world := mkWorld { fs : gmap Path node; out : list output }.

Inductive outcome (A : Type) :=
| Return (a : A) (w : world)
| Raise (e : exn) (w : world).
Arguments Return {A} a w.
Arguments Raise {A} e w.

Definition world_of {A} (o : outcome A) : world :=
  match o with
  | Return _ w => w
  | Raise _ w => w
  end.

(** State-and-exception monad of the plugin's methods. *)
Definition M (A : Type) : Type := world -> outcome A.

Global Instance M_ret : MRet M := fun A a w => Return a w.

Global Instance M_bind : MBind M := fun A B k m w =>
  match m w with
  | Return a w' => k a w'
  | Raise e w' => Raise e w'
  end.

Definition raise {A} (e : exn) : M A := fun w => Raise e w.

Definition lift {A} (r : result A) : M A :=
  match r with
  | Ok a => mret a
  | Err e => raise e
  end.

(** Query the filesystem. *)
Definition read {A} (f : gmap Path node -> A) : M A :=
  fun w => Return (f (fs w)) w.

(** Query the filesystem with a call that may fail. *)
Definition read_result {A} (f : gmap Path node -> result A) : M A :=
  fun w => lift (f (fs w)) w.

(** Run one filesystem call that may fail. *)
Definition mutate (f : gmap Path node -> result (gmap Path node)) : M unit :=
  fun w =>
    match f (fs w) with
    | Ok fs' => Return tt (mkWorld fs' (out w))
    | Err e => Raise e w
    end.

Definition emit (o : output) : M unit :=
  fun w => Return tt (mkWorld (fs w) (out w ++ [o])).

(** [try: body except Exception as e: handler(e)] *)
Definition try_except {A} (body : M A) (handler : exn -> M A) : M A :=
  fun w =>
    match body w with
    | Return a w' => Return a w'
    | Raise e w' => handler e w'
    end.

(** [with lock: body]: the lock is released on every exit path. *)
Definition with_lock {A} (body : M A) : M A :=
  fun w =>
    match body (world_of (emit Lock_acquire w)) with
    | Return a w' => Return a (world_of (emit Lock_release w'))
    | Raise e w' => Raise e (world_of (emit Lock_release w'))
    end.

(** A statement that does nothing, and a bare [return]. *)
Definition pass : M unit := fun w => Return tt w.

(** [for x in l: f(x)] *)
Fixpoint for_each {A} (f : A -> M unit) (l : list A) : M unit :=
  match l with
  | [] => pass
  | x :: l' => f x ;; for_each f l'
  end.

(** ** Python dictionaries with string keys, in insertion order *)

Module Dict.

Fixpoint set {V} (k : string) (v : V) (d : list (string * V)) : list (string * V) :=
  match d with
  | [] => [(k, v)]
  | (k', v') :: d' =>
      if String.eqb k k' then (k, v) :: d' else (k', v') :: set k v d'
  end.

(** [d.get(k)] *)
Fixpoint get {V} (k : string) (d : list (string * V)) : option V :=
  match d with
  | [] => None
  | (k', v') :: d' => if String.eqb k k' then Some v' else get k d'
  end.

(** [d.values()] *)
Definition values {V} (d : list (string * V)) : list V := snd <$> d.

End Dict.

(** ** The plugin object *)

(** Jobs handed to the background scheduler. *)
Inductive job :=
| Job_start_monitor (source_dir : string)
| Job_sync_all.

Record scheduler := mkScheduler { jobs : list job; running : bool }.

Record FileSoftLink := mkFileSoftLink {
  _scheduler : option scheduler;
  _observer : list string;
  _enabled : bool;
  _onlyonce : bool;
  _copy_files : bool;
  _cron : option string;
  _size : Z;
  _mode : string;
  _monitor_dirs : string;
  _exclude_keywords : string;
  _dirconf : list (string * option Path)
}.

(** The configuration dictionary handed to [init_plugin]. *)
Record config := mkConfig {
  cfg_enabled : bool;
  cfg_onlyonce : bool;
  cfg_copy_files : bool;
  cfg_mode : string;
  cfg_monitor_dirs : option string;
  cfg_exclude_keywords : option string;
  cfg_cron : option string;
  cfg_size : option Z
}.

Definition with_dirconf (st : FileSoftLink) (d : list (string * option Path)) : FileSoftLink :=
  mkFileSoftLink (_scheduler st) (_observer st) (_enabled st) (_onlyonce st)
    (_copy_files st) (_cron st) (_size st) (_mode st) (_monitor_dirs st)
    (_exclude_keywords st) d.

Definition with_scheduler (st : FileSoftLink) (s : option scheduler) : FileSoftLink :=
  mkFileSoftLink s (_observer st) (_enabled st) (_onlyonce st)
    (_copy_files st) (_cron st) (_size st) (_mode st) (_monitor_dirs st)
    (_exclude_keywords st) (_dirconf st).

Definition with_observer (st : FileSoftLink) (o : list string) : FileSoftLink :=
  mkFileSoftLink (_scheduler st) o (_enabled st) (_onlyonce st)
    (_copy_files st) (_cron st) (_size st) (_mode st) (_monitor_dirs st)
    (_exclude_keywords st) (_dirconf st).

Definition with_onlyonce (st : FileSoftLink) (b : bool) : FileSoftLink :=
  mkFileSoftLink (_scheduler st) (_observer st) (_enabled st) b
    (_copy_files st) (_cron st) (_size st) (_mode st) (_monitor_dirs st)
    (_exclude_keywords st) (_dirconf st).

(** The assignments under [if config:]. *)
Definition load_config (st : FileSoftLink) (c : config) : FileSoftLink :=
  mkFileSoftLink (_scheduler st) (_observer st)
    (cfg_enabled c) (cfg_onlyonce c) (cfg_copy_files c) (cfg_cron c)
    (default 0 (cfg_size c)) (cfg_mode c)
    (default "" (cfg_monitor_dirs c))
    (default "" (cfg_exclude_keywords c))
    (_dirconf st).

(** [self._scheduler.add_job(...)] *)
Definition add_job (st : FileSoftLink) (j : job) : result FileSoftLink :=
  match _scheduler st with
  | Some s => Ok (with_scheduler st (Some (mkScheduler (jobs s ++ [j]) (running s))))
  | None => Err AttributeError
  end.

(** [self._scheduler.remove_all_jobs()] and [self._scheduler.shutdown()]:
    [shutdown] raises on a scheduler that is not running. *)
Definition shutdown (s : scheduler) : result scheduler :=
  if running s then Ok (mkScheduler [] false) else Err SchedulerNotRunningError.

(** [stop_service]: the scheduler, when there is one, is emptied and shut
    down; then every observer is stopped and joined.  The scheduler object
    stays in place. *)
Definition stop_service (st : FileSoftLink) : result FileSoftLink :=
  result_bind
    (match _scheduler st with
     | Some s => result_bind (shutdown s) (fun s' => Ok (with_scheduler st (Some s')))
     | None => Ok st
     end)
    (fun st => Ok (with_observer st [])).

(** The watch sessions a plugin object is going to open: the
    [start_monitor] jobs of a started scheduler. *)
Definition monitored (st : FileSoftLink) : list string :=
  match _scheduler st with
  | Some s =>
      if running s
      then omap (fun j => match j with
                          | Job_start_monitor d => Some d
                          | Job_sync_all => None
                          end) (jobs s)
      else []
  | None => []
  end.

(** The argument [path] of [__handle_file] is a [str] when it comes from
    [event_handler] and a [Path] when it comes from [sync_all]. *)
Inductive path_arg :=
| Arg_str (s : string)
| Arg_path (p : Path).

(** Left operands of the [in] operator. *)
Inductive pyobj :=
| Obj_str (s : string)
| Obj_path (p : Path).

(** [x in s] for a string [s]: the left operand must be a string too. *)
Definition str_contains (x : pyobj) (s : string) : result bool :=
  match x with
  | Obj_str a => Ok (PyStr.contains a s)
  | Obj_path _ => Err TypeError
  end.

Definition colon : ascii := ":"%char.
Definition newline : ascii := ascii_of_nat 10.

Section Engine.

(** [SystemUtils.is_windows()] *)
Variable is_windows : bool.
(** [MediaType.ALL_VIDEO] and [MediaType.ALL_SUBTITLE] *)
Variable ALL_VIDEO ALL_SUBTITLE : list string.
(** Truth value of [re.findall(pattern, s, re.IGNORECASE)]; an invalid
    pattern raises. *)
Variable re_findall_ignorecase : string -> string -> result bool.
(** [str.lower] *)
Variable str_lower : string -> string.
(** [PureWindowsPath(target).is_relative_to(PureWindowsPath(source))]: the
    Windows flavour of [pathlib] is not modelled. *)
Variable windows_is_relative_to : string -> string -> bool.

(** *** Configuration *)

Definition index {A} (l : list A) (i : nat) : result A :=
  match l !! i with
  | Some x => Ok x
  | None => Err IndexError
  end.

(** The [paths] of one configuration line. *)
Definition split_mon_path (mon_path : string) : result (list string) :=
  if is_windows then
    if (1 <? PyStr.count colon mon_path)%nat then
      let pieces := PyStr.split colon mon_path in
      result_bind (index pieces 0) (fun p0 =>
      result_bind (index pieces 1) (fun p1 =>
      result_bind (index pieces 2) (fun p2 =>
      result_bind (index pieces 3) (fun p3 =>
      Ok [p0 +:+ ":" +:+ p1; p2 +:+ ":" +:+ p3]))))
    else Ok [mon_path]
  else Ok (PyStr.split colon mon_path).

(** Schedule the delayed start of the watch session of [mon_path]. *)
Definition schedule_monitor (st : FileSoftLink) (mon_path : string) : M FileSoftLink :=
  emit (Log_info (Msg_monitor_delayed mon_path)) ;;
  lift (add_job st (Job_start_monitor mon_path)).

(** [target_path.is_relative_to(Path(mon_path))], on the strings the two
    paths are built from. *)
Definition target_in_mon_path (target mon_path : string) : bool :=
  if is_windows then windows_is_relative_to target mon_path
  else PurePath.is_relative_to (PurePath.of_str target) (PurePath.of_str mon_path).

(** The body of the loop over the configuration lines. *)
Definition configure_line (st : FileSoftLink) (mon_path : string) : M FileSoftLink :=
  if String.eqb mon_path "" then mret st
  else
    paths ← lift (split_mon_path mon_path);
    let '(mon_path, target) :=
      match paths with
      | p0 :: p1 :: _ => (p0, Some p1)
      | _ => (mon_path, None)
      end in
    let target_path := PurePath.of_str <$> target in
    let st := with_dirconf st (Dict.set mon_path target_path (_dirconf st)) in
    if _enabled st then
      match target with
      | Some target =>
          if target_in_mon_path target mon_path then
            emit (Log_warn (Msg_nested (PurePath.of_str target) mon_path)) ;;
            emit (System_message (Msg_nested (PurePath.of_str target) mon_path)) ;;
            mret st
          else schedule_monitor st mon_path
      | None => schedule_monitor st mon_path
      end
    else mret st.

Fixpoint configure_lines (st : FileSoftLink) (lines : list string) : M FileSoftLink :=
  match lines with
  | [] => mret st
  | l :: lines' => st' ← configure_line st l; configure_lines st' lines'
  end.

Definition start_scheduler (st : FileSoftLink) : FileSoftLink :=
  match _scheduler st with
  | Some s =>
      match jobs s with
      | [] => st
      | _ => with_scheduler st (Some (mkScheduler (jobs s) true))
      end
  | None => st
  end.

(** [if not monitor_dirs: return] never fires: [split] returns at least one
    piece. *)
Definition init_plugin (cfg : option config) (st : FileSoftLink) : M FileSoftLink :=
  let st := with_dirconf st [] in
  let st := match cfg with
            | Some c => load_config st c
            | None => st
            end in
  st ← lift (stop_service st);
  if _enabled st || _onlyonce st then
    let st := with_scheduler st (Some (mkScheduler [] false)) in
    st ← configure_lines st (PyStr.split newline (_monitor_dirs st));
    st ← (if _onlyonce st then
            emit (Log_info Msg_run_once) ;;
            st ← lift (add_job st Job_sync_all);
            mret (with_onlyonce st false)
          else mret st);
    mret (start_scheduler st)
  else mret st.

(** *** Runtime *)

(** The destination-membership guard of [__handle_file]: the list
    [[p in str(path) for p in self._dirconf.values() if p]] is built in
    full, then [any] is taken.  Every non-[None] value is a [Path]. *)
Definition dest_guard (st : FileSoftLink) (path_str : string) : result bool :=
  result_bind
    (result_mapM (fun p => str_contains (Obj_path p) path_str)
                 (omap id (Dict.values (_dirconf st))))
    (fun bs => Ok (existsb id bs)).

(** [path.suffix.lower() in MediaType.ALL_VIDEO + MediaType.ALL_SUBTITLE] *)
Definition is_media (path : Path) : bool :=
  existsb (String.eqb (str_lower (PurePath.suffix path))) (ALL_VIDEO ++ ALL_SUBTITLE).

(** The last block of [__handle_file]: link or copy. *)
Definition link_or_copy (st : FileSoftLink) (path target_file : Path) : M unit :=
  if _copy_files st then
    if is_media path then
      mutate (fun fs => FS.symlink fs path target_file) ;;
      emit (Log_info (Msg_linked_media path target_file))
    else
      mutate (fun fs => FS.copy fs path target_file) ;;
      emit (Log_info (Msg_copied path target_file))
  else
    mutate (fun fs => FS.symlink fs path target_file) ;;
    emit (Log_info (Msg_linked path target_file)).

Definition __handle_file (st : FileSoftLink) (path : path_arg) (mon_path : string)
           (target_path : option Path) : M unit :=
  match path with
  | Arg_str _ => raise AttributeError   (* [path.exists()] on a [str] *)
  | Arg_path path =>
      present ← read (fun fs => FS.exists_ fs path);
      if negb present then pass
      else
        inside ← lift (dest_guard st (PurePath.to_str path));
        if (inside : bool) then pass
        else
          relpath ← lift (PurePath.relative_to path (PurePath.of_str mon_path));
          match target_path with
          | None => raise AttributeError   (* [None.joinpath] *)
          | Some target_path =>
              let target_file := PurePath.joinpath target_path relpath in
              let target_dir := PurePath.parent target_file in
              mutate (fun fs => FS.mkdir_parents fs target_dir) ;;
              stale ← read (fun fs => FS.exists_ fs target_file);
              (if (stale : bool) then mutate (fun fs => FS.unlink fs target_file) else pass) ;;
              link_or_copy st path target_file
          end
  end.

(** The body of the loop of [__handle_delete]. *)
Definition delete_target (relpath : Path) (target_dir : option Path) : M unit :=
  match target_dir with
  | Some target_dir =>
      let target_file := PurePath.joinpath target_dir relpath in
      present ← read (fun fs => FS.exists_ fs target_file);
      if (present : bool) then
        mutate (fun fs => FS.unlink fs target_file) ;;
        emit (Log_info (Msg_deleted target_file))
      else pass
  | None => pass
  end.

Definition __handle_delete (st : FileSoftLink) (path mon_path : string) : M unit :=
  relpath ← lift (PurePath.relative_to (PurePath.of_str path) (PurePath.of_str mon_path));
  for_each (delete_target relpath) (Dict.values (_dirconf st)).

(** The size test of [event_handler], with Python's short-circuit [and]. *)
Definition oversized (st : FileSoftLink) (event_path : string) : M bool :=
  if 0 <? _size st then
    present ← read (fun fs => FS.exists_ fs (PurePath.of_str event_path));
    if (present : bool) then
      sz ← read_result (fun fs => FS.getsize_str fs event_path);
      mret (_size st * 1024 * 1024 <? sz)
    else mret false
  else mret false.

(** The exclude test of [event_handler]. *)
Definition excluded (st : FileSoftLink) (event_path : string) : M bool :=
  if String.eqb (_exclude_keywords st) "" then mret false
  else lift (re_findall_ignorecase (_exclude_keywords st) event_path).

(** The [try] suite of [event_handler]. *)
Definition event_try (st : FileSoftLink) (text : event_text)
           (mon_path event_path : string) : M unit :=
  emit (Log_info (Msg_event event_path text)) ;;
  present ← read (fun fs => FS.exists_ fs (PurePath.of_str event_path));
  if negb present && negb (bool_decide (text = Text_delete)) then pass
  else
    big ← oversized st event_path;
    if (big : bool) then emit (Log_info (Msg_oversize event_path))
    else
      skip ← excluded st event_path;
      if (skip : bool) then emit (Log_info (Msg_excluded event_path))
      else
        if bool_decide (text = Text_delete)
        then __handle_delete st event_path mon_path
        else __handle_file st (Arg_str event_path) mon_path
                           (mjoin (Dict.get mon_path (_dirconf st))).

(** The [except Exception] suite of [event_handler]. *)
Definition event_except (text : event_text) (event_path : string) (e : exn) : M unit :=
  emit (Log_error (Msg_event_failed event_path text e)) ;;
  emit (System_message (Msg_event_failed event_path text e)).

Definition event_handler (st : FileSoftLink) (text : event_text)
           (mon_path event_path : string) : M unit :=
  with_lock
    (try_except (event_try st text mon_path event_path)
                (event_except text event_path)).

(** The body of the tree walk. *)
Definition sync_path (st : FileSoftLink) (mon_path : string) (target_path : option Path)
           (path : Path) : M unit :=
  regular ← read (fun fs => FS.is_file fs path);
  if (regular : bool) then __handle_file st (Arg_path path) mon_path target_path
  else pass.

(** The tree walk of one mapping.  The walk enumerates the tree as it is
    when the walk starts. *)
Definition sync_tree (st : FileSoftLink) (mon_path : string) (target_path : option Path)
  : M unit :=
  emit (Log_info (Msg_sync_start mon_path)) ;;
  paths ← read (fun fs => FS.rglob fs (PurePath.of_str mon_path));
  for_each (sync_path st mon_path target_path) paths.

Definition sync_all (st : FileSoftLink) : M unit :=
  for_each (fun item => sync_tree st (fst item) (snd item)) (_dirconf st).

(** *** The engine as a transition system *)

(** What can happen to the world: a watchdog callback, a full resync
    (whose caller, the scheduler, swallows its exception), or a change
    made by another process. *)
Inductive op :=
| Op_event (text : event_text) (mon_path event_path : string)
| Op_sync_all
| Op_external (f : gmap Path node -> gmap Path node).

Definition step (st : FileSoftLink) (w : world) (o : op) : world :=
  match o with
  | Op_event text mon_path event_path =>
      world_of (event_handler st text mon_path event_path w)
  | Op_sync_all => world_of (sync_all st w)
  | Op_external f => mkWorld (f (fs w)) (out w)
  end.

Definition run (st : FileSoftLink) (ops : list op) (w : world) : world :=
  fold_left (step st) ops w.

(** *** The watchdog callbacks *)

(** What a watchdog event carries: the path it is about and, for a move,
    the path moved to. *)
Record watch_event := mkWatchEvent { src_path : string; dest_path : string }.

(** [FileMonitorHandler]: the watched root; its [sync] is the plugin. *)
Record FileMonitorHandler := mkFileMonitorHandler { _watch_path : string }.

Definition on_created (st : FileSoftLink) (h : FileMonitorHandler) (event : watch_event)
  : M unit :=
  event_handler st Text_create (_watch_path h) (src_path event).

Definition on_moved (st : FileSoftLink) (h : FileMonitorHandler) (event : watch_event)
  : M unit :=
  event_handler st Text_move (_watch_path h) (dest_path event).

Definition on_deleted (st : FileSoftLink) (h : FileMonitorHandler) (event : watch_event)
  : M unit :=
  event_handler st Text_delete (_watch_path h) (src_path event).

(** *** The remote trigger *)

(** The two titles [remote_sync] posts. *)
Inductive post_title :=
| Title_sync_started
| Title_sync_finished.

(** One call of [post_message]. *)
Record posted := mkPosted {
  post_channel : option string;
  post_title_of : post_title;
  post_userid : option string
}.

(** [remote_sync(event)]: [event] may be missing, and its [event_data] may
    be missing or empty.  The messages posted are returned beside the
    outcome. *)
Definition remote_sync (st : FileSoftLink)
           (event : option (option (list (string * string))))
  : world -> list posted * outcome unit :=
  fun w =>
    match event with
    | Some event_data =>
        match event_data with
        | None | Some [] => ([], Return tt w)
        | Some data =>
            if negb (bool_decide (Dict.get "action" data = Some "softlink_sync"))
            then ([], Return tt w)
            else
              let started :=
                mkPosted (Dict.get "channel" data) Title_sync_started
                         (Dict.get "user" data) in
              match sync_all st w with
              | Return _ w' =>
                  ([started;
                    mkPosted (Dict.get "channel" data) Title_sync_finished
                             (Dict.get "user" data)],
                   Return tt w')
              | Raise e w' => ([started], Raise e w')
              end
        end
    | None => ([], sync_all st w)
    end.

End Engine.

(** ** Vocabulary of the statements *)

(** Some mapping has a destination. *)
Definition has_destination (st : FileSoftLink) : bool :=
  existsb (fun v : option Path => match v with Some _ => true | None => false end)
          (Dict.values (_dirconf st)).

(** The destination-membership test as the design document words it:
    "true if [path] string-contains any configured non-empty destination
    root". *)
Definition isInsideAnyDestination (st : FileSoftLink) (path_str : string) : bool :=
  existsb (fun p => PyStr.contains (PurePath.to_str p) path_str)
          (omap id (Dict.values (_dirconf st))).

(** Both callers pass, as [target_path], the table's entry of the
    mapping: either [None], or a destination of the table. *)
Definition from_table (st : FileSoftLink) (target_path : option Path) : Prop :=
  target_path = None \/ has_destination st = true.

(** The filesystem is the same before and after. *)
Definition same_fs (w w' : world) : Prop := fs w' = fs w.

(** Every path free before is free after. *)
Definition no_creation (w w' : world) : Prop :=
  forall t : Path, fs w !! t = None -> fs w' !! t = None.

(** Nothing is stored at [p]. *)
Definition absent (w : world) (p : Path) : Prop := fs w !! p = None.

(** An operation of another process that creates nothing at [p]. *)
Definition leaves_absent (p : Path) (o : op) : Prop :=
  match o with
  | Op_external f => forall m : gmap Path node, m !! p = None -> f m !! p = None
  | _ => True
  end.

(** The table never holds a destination equal to or below its own source. *)
Definition table_never_nested (is_windows : bool) : Prop :=
  forall windows_is_relative_to cfg st w st' w' mon_path target_path,
    init_plugin is_windows windows_is_relative_to cfg st w = Return st' w' ->
    In (mon_path, Some target_path) (_dirconf st') ->
    PurePath.is_relative_to target_path (PurePath.of_str mon_path) = false.

(** No watch session is opened for a source that the table maps to a
    destination equal to or below it. *)
Definition sessions_never_nested (is_windows : bool) : Prop :=
  forall windows_is_relative_to cfg st w st' w' mon_path target_path,
    init_plugin is_windows windows_is_relative_to cfg st w = Return st' w' ->
    In mon_path (monitored st') ->
    Dict.get mon_path (_dirconf st') = Some (Some target_path) ->
    PurePath.is_relative_to target_path (PurePath.of_str mon_path) = false.

(** An output that is not an operation on the global lock. *)
Definition lock_free (o : output) : Prop :=
  match o with
  | Lock_acquire | Lock_release => False
  | _ => True
  end.

(** From [w] to [w'] outputs were only appended, none of them an operation
    on the lock. *)
Definition quiet (w w' : world) : Prop :=
  exists mid, out w' = (out w ++ mid)%list /\ Forall lock_free mid.

(** The jobs the scheduler holds. *)
Definition scheduled (st : FileSoftLink) : list job :=
  match _scheduler st with
  | Some s => jobs s
  | None => []
  end.

(** The source and the destination a configuration line stands for, given
    the [paths] it splits into. *)
Definition line_source (paths : list string) (line : string) : string :=
  match paths with
  | p0 :: _ :: _ => p0
  | _ => line
  end.

Definition line_target (paths : list string) : option Path :=
  match paths with
  | _ :: p1 :: _ => Some (PurePath.of_str p1)
  | _ => None
  end.

(** The plugin object after the first two steps of [init_plugin]: table
    cleared, configuration read. *)
Definition loaded (cfg : option config) (st : FileSoftLink) : FileSoftLink :=
  match cfg with
  | Some c => load_config (with_dirconf st []) c
  | None => with_dirconf st []
  end.

(** The paths of a line put its destination in or at its source. *)
Definition line_nested (is_windows : bool)
           (windows_is_relative_to : string -> string -> bool)
           (paths : list string) : bool :=
  match paths with
  | p0 :: p1 :: _ => target_in_mon_path is_windows windows_is_relative_to p1 p0
  | _ => false
  end.

(** The watch session one configuration line asks for: the source of the
    line, unless the line is empty or its destination is nested. *)
Definition accepted_source (is_windows : bool)
           (windows_is_relative_to : string -> string -> bool)
           (line : string) : list string :=
  if String.eqb line "" then []
  else
    match split_mon_path is_windows line with
    | Ok paths =>
        if line_nested is_windows windows_is_relative_to paths then []
        else [line_source paths line]
    | Err _ => []
    end.

(** The watch sessions a configuration text asks for, line by line. *)
Definition accepted_sources (is_windows : bool)
           (windows_is_relative_to : string -> string -> bool)
           (lines : list string) : list string :=
  flat_map (accepted_source is_windows windows_is_relative_to) lines.

(** The job that opens the watch session of a source. *)
Definition session_of (j : job) : option string :=
  match j with
  | Job_start_monitor d => Some d
  | Job_sync_all => None
  end.

(** No line of [lines] has the source [src]. *)
Definition no_line_for (is_windows : bool) (lines : list string) (src : string) : Prop :=
  forall l paths,
    In l lines -> l <> "" -> split_mon_path is_windows l = Ok paths ->
    line_source paths l <> src.

(** The tree of [mon_path] holds a regular file, or none. *)
Definition tree_has_file (m : gmap Path node) (mon_path : string) : Prop :=
  exists path, In path (FS.rglob m (PurePath.of_str mon_path)) /\
               FS.is_file m path = true.

Definition tree_without_files (m : gmap Path node) (mon_path : string) : Prop :=
  forall path, In path (FS.rglob m (PurePath.of_str mon_path)) ->
               FS.is_file m path = false.

(** The log lines [sync_all] writes when it starts on each of [items]. *)
Definition sync_starts (items : list (string * option Path)) : list output :=
  (fun item => Log_info (Msg_sync_start (fst item))) <$> items.

(** The exception [__handle_file] ends with under the table of [st]. *)
Definition materializer_error (st : FileSoftLink) : exn :=
  if has_destination st then TypeError else AttributeError.

(** The size test of [event_handler] lets the path through: no positive
    threshold, or nothing at the path, or a size up to the threshold. *)
Definition within_size (st : FileSoftLink) (m : gmap Path node) (event_path : string)
  : Prop :=
  _size st <= 0 \/
  FS.exists_ m (PurePath.of_str event_path) = false \/
  exists sz, FS.getsize_str m event_path = Ok sz /\
             sz <= _size st * 1024 * 1024.

(** The outputs of an event that was dropped or handled without error,
    and of an event whose handling raised [e]. *)
Definition event_trace (text : event_text) (event_path : string) (mid : list output)
  : list output :=
  [Lock_acquire; Log_info (Msg_event event_path text)] ++ mid ++ [Lock_release].

Definition failure_report (text : event_text) (event_path : string) (e : exn)
  : list output :=
  [Log_error (Msg_event_failed event_path text e);
   System_message (Msg_event_failed event_path text e)].

(** ** Sample configurations and trees *)

Module Sample.

Definition P : string -> Path := PurePath.of_str.

Definition video : list string := [".mkv"; ".mp4"].
Definition subtitle : list string := [".srt"; ".ass"].

(** A stand-in for the regular-expression engine: case-insensitive
    substring search. *)
Definition search (pattern s : string) : result bool :=
  Ok (PyStr.contains (PyStr.lower_ascii pattern) (PyStr.lower_ascii s)).

Definition plugin (copy_files : bool) (size : Z) (exclude : string)
           (dirconf : list (string * option Path)) : FileSoftLink :=
  mkFileSoftLink None [] true false copy_files None size "fast" "" exclude dirconf.

Definition fresh : FileSoftLink :=
  mkFileSoftLink None [] false false false None 0 "compatibility" "" "" [].

Definition settings (monitor_dirs : string) : config :=
  mkConfig true false false "fast" (Some monitor_dirs) None None None.

Definition lines (l : list string) : string := PyStr.join (String newline "") l.

(** [/src/a/movie.mkv] and [/src/a/poster.jpg] next to an empty [/dst]. *)
Definition tree : gmap Path node :=
  <[P "/src/a/poster.jpg" := File [x01; x02; x03]]>
  (<[P "/src/a/movie.mkv" := File [x4d; x4b; x56]]>
  (<[P "/src/a" := Dir]> (<[P "/src" := Dir]> (<[P "/dst" := Dir]> ∅)))).

(** A partial download next to the finished file. *)
Definition tree_tmp : gmap Path node :=
  <[P "/src/a/movie.mkv.tmp" := File [x00]]> tree.

(** The source file is gone, its link in [/dst] is left behind. *)
Definition tree_after_delete : gmap Path node :=
  <[P "/dst/a/movie.mkv" := Symlink (P "/src/a/movie.mkv")]>
  (<[P "/dst/a" := Dir]>
  (<[P "/src/a" := Dir]> (<[P "/src" := Dir]> (<[P "/dst" := Dir]> ∅)))).

(** Two source trees with one file each. *)
Definition two_trees : gmap Path node :=
  <[P "/b/g.mkv" := File [x02]]> (<[P "/a/f.mkv" := File [x01]]>
  (<[P "/a" := Dir]> (<[P "/b" := Dir]> (<[P "/x" := Dir]> (<[P "/y" := Dir]> ∅))))).

(** A file of one megabyte and one byte. *)
Definition huge : list byte := repeat x00 (Z.to_nat 1048577).

Definition tree_huge : gmap Path node :=
  <[P "/src/a/huge.bin" := File huge]> tree.

(** A matcher that, like the regular-expression engine, rejects the
    pattern of a lone opening parenthesis. *)
Definition strict_search (pattern s : string) : result bool :=
  if String.eqb pattern "(" then Err ReError else search pattern s.

(** The poster has been copied to [/dst/a]. *)
Definition tree_with_copy : gmap Path node :=
  <[P "/dst/a/poster.jpg" := File [x01; x02; x03]]> (<[P "/dst/a" := Dir]> tree).

(** Directories only. *)
Definition bare_tree : gmap Path node :=
  <[P "/src/a" := Dir]> (<[P "/src" := Dir]> (<[P "/dst" := Dir]> ∅)).

(** A stand-in for the nesting test of the Windows flavour: the two
    strings are the same. *)
Definition windows_test (target source : string) : bool := String.eqb target source.

(** The event data of a remote sync command. *)
Definition sync_command : list (string * string) :=
  [("action", "softlink_sync"); ("channel", "telegram"); ("user", "42")].

Definition run_once_settings (monitor_dirs : string) : config :=
  mkConfig false true false "fast" (Some monitor_dirs) None None None.

Definition disabled_settings (monitor_dirs : string) : config :=
  mkConfig false false false "fast" (Some monitor_dirs) None None None.

End Sample.

(** ** Properties *)

Section Properties.

Variable is_windows : bool.
Variable ALL_VIDEO ALL_SUBTITLE : list string.
Variable re_findall_ignorecase : string -> string -> result bool.
Variable str_lower : string -> string.
Variable windows_is_relative_to : string -> string -> bool.

Local Abbreviation handle_file := (__handle_file ALL_VIDEO ALL_SUBTITLE str_lower).
Local Abbreviation handle_event :=
  (event_handler ALL_VIDEO ALL_SUBTITLE re_findall_ignorecase str_lower).
Local Abbreviation resync := (sync_all ALL_VIDEO ALL_SUBTITLE str_lower).
Local Abbreviation resync_tree := (sync_tree ALL_VIDEO ALL_SUBTITLE str_lower).
Local Abbreviation engine_step :=
  (step ALL_VIDEO ALL_SUBTITLE re_findall_ignorecase str_lower).
Local Abbreviation engine_run :=
  (run ALL_VIDEO ALL_SUBTITLE re_findall_ignorecase str_lower).

(** *** The destination-membership guard *)

Lemma guard_list_raises (s : string) (l : list Path) :
  l <> [] ->
  result_mapM (fun p => str_contains (Obj_path p) s) l = Err TypeError.
Proof. destruct l as [|p l]; [congruence | reflexivity]. Qed.

Lemma omap_id_nil_iff (l : list (option Path)) :
  omap id l = [] <->
  existsb (fun v : option Path => match v with Some _ => true | None => false end) l = false.
Proof.
  induction l as [|[p|] l IH]; simpl.
  - split; reflexivity.
  - split; intros; congruence.
  - exact IH.
Qed.

(** The guard raises as soon as one destination is configured, and
    answers [False] otherwise. *)
Lemma dest_guard_spec (st : FileSoftLink) (s : string) :
  dest_guard st s = if has_destination st then Err TypeError else Ok false.
Proof.
  unfold dest_guard, has_destination.
  destruct (existsb _ _) eqn:E.
  - rewrite guard_list_raises; [reflexivity|].
    intros H. apply omap_id_nil_iff in H. congruence.
  - apply omap_id_nil_iff in E. rewrite E. reflexivity.
Qed.

(** *** The single-file materializer as its callers use it *)

Lemma dict_get_in {V} (k : string) (v : V) (d : list (string * V)) :
  Dict.get k d = Some v -> In (k, v) d.
Proof.
  induction d as [|[k' v'] d IH]; simpl; [discriminate|].
  destruct (String.eqb k k') eqn:E.
  - apply String.eqb_eq in E. intros [= ->]. subst. now left.
  - intros H. right. auto.
Qed.

Lemma from_table_item (st : FileSoftLink) (item : string * option Path) :
  In item (_dirconf st) -> from_table st (snd item).
Proof.
  unfold from_table, has_destination, Dict.values. intros Hin.
  destruct item as [k [tp|]]; [right | now left].
  apply existsb_exists. exists (Some tp). split; [|reflexivity].
  apply in_map_iff. exists (k, Some tp). auto.
Qed.

Lemma from_table_get (st : FileSoftLink) (mon_path : string) :
  from_table st (mjoin (Dict.get mon_path (_dirconf st))).
Proof.
  destruct (Dict.get mon_path (_dirconf st)) as [v|] eqn:E; [|now left].
  apply dict_get_in in E. apply (from_table_item st (mon_path, v) E).
Qed.

(** Called that way on a file that exists, the materializer raises
    before it touches anything. *)
Lemma handle_file_raises st (path : Path) mon_path target_path w :
  FS.exists_ (fs w) path = true ->
  from_table st target_path ->
  exists e, handle_file st (Arg_path path) mon_path target_path w = Raise e w
            /\ (e = TypeError \/ e = ValueError \/ e = AttributeError).
Proof.
  intros Hex Htab. unfold __handle_file, mbind, M_bind, read, lift. simpl.
  rewrite Hex. simpl. rewrite dest_guard_spec.
  destruct (has_destination st) eqn:Hd; simpl.
  - exists TypeError. auto.
  - destruct Htab as [->|?]; [|congruence].
    destruct (PurePath.relative_to _ _) eqn:E; simpl.
    + exists AttributeError. auto.
    + exists e. split; [reflexivity|].
      unfold PurePath.relative_to in E. destruct (PurePath.is_relative_to _ _); [discriminate|].
      injection E as <-. auto.
Qed.

(** With a destination in the table, the materializer stops at the
    destination-membership test for every file that exists. *)
Lemma handle_file_type_error st (path : Path) mon_path target_path w :
  FS.exists_ (fs w) path = true ->
  has_destination st = true ->
  handle_file st (Arg_path path) mon_path target_path w = Raise TypeError w.
Proof.
  intros Hex Hd. unfold __handle_file, mbind, M_bind, read, lift.
  rewrite Hex. cbn [negb]. rewrite dest_guard_spec, Hd. reflexivity.
Qed.

Lemma handle_file_no_effect st path mon_path target_path w :
  from_table st target_path ->
  world_of (handle_file st path mon_path target_path w) = w.
Proof.
  intros Htab. destruct path as [s|p]; [reflexivity|].
  destruct (FS.exists_ (fs w) p) eqn:Hex.
  - destruct (handle_file_raises st p mon_path target_path w Hex Htab) as (e & -> & _).
    reflexivity.
  - unfold __handle_file, mbind, M_bind, read. simpl. rewrite Hex. reflexivity.
Qed.

(** *** Loops *)

Lemma for_each_cons {A} (f : A -> M unit) (x : A) (l : list A) (w : world) :
  for_each f (x :: l) w =
  match f x w with
  | Return _ w' => for_each f l w'
  | Raise e w' => Raise e w'
  end.
Proof. reflexivity. Qed.

(** A relation between worlds that every iteration respects is respected
    by the loop, however it ends. *)
Lemma for_each_preserves {A} (R : world -> world -> Prop) (f : A -> M unit) (l : list A) :
  (forall w, R w w) ->
  (forall w1 w2 w3, R w1 w2 -> R w2 w3 -> R w1 w3) ->
  (forall x w, In x l -> R w (world_of (f x w))) ->
  forall w, R w (world_of (for_each f l w)).
Proof.
  intros Hrefl Htrans. induction l as [|x l IH]; intros Hf w; [apply Hrefl|].
  rewrite for_each_cons.
  pose proof (Hf x w (or_introl eq_refl)) as Hx.
  destruct (f x w) as [[] w'|e w']; simpl in *; [|exact Hx].
  eapply Htrans; [exact Hx|]. apply IH. intros y w0 Hy. apply Hf. now right.
Qed.

(** *** The full resync writes nothing *)

Lemma sync_path_no_effect st mon_path target_path path w :
  from_table st target_path ->
  world_of (sync_path ALL_VIDEO ALL_SUBTITLE str_lower st mon_path target_path path w) = w.
Proof.
  intros Htab. unfold sync_path, mbind, M_bind, read.
  destruct (FS.is_file (fs w) path); [|reflexivity].
  now apply handle_file_no_effect.
Qed.

Lemma sync_tree_same_fs st mon_path target_path w :
  from_table st target_path ->
  same_fs w (world_of (resync_tree st mon_path target_path w)).
Proof.
  intros Htab. unfold sync_tree, mbind, M_bind, emit, read.
  set (w1 := mkWorld (fs w) (out w ++ [Log_info (Msg_sync_start mon_path)])).
  change (same_fs w1 (world_of (for_each
    (sync_path ALL_VIDEO ALL_SUBTITLE str_lower st mon_path target_path)
    (FS.rglob (fs w1) (PurePath.of_str mon_path)) w1))).
  apply for_each_preserves; unfold same_fs; try congruence.
  intros x w0 _. now rewrite sync_path_no_effect.
Qed.

Lemma sync_all_same_fs st w : same_fs w (world_of (resync st w)).
Proof.
  unfold sync_all. apply for_each_preserves; unfold same_fs; try congruence.
  intros item w0 Hin. apply sync_tree_same_fs. now apply from_table_item.
Qed.

(** *** Deletion and event handling create nothing *)

Lemma no_creation_refl w : no_creation w w.
Proof. intros t H. exact H. Qed.

Lemma no_creation_trans w1 w2 w3 :
  no_creation w1 w2 -> no_creation w2 w3 -> no_creation w1 w3.
Proof. intros H1 H2 t H. apply H2, H1, H. Qed.

Lemma same_fs_no_creation w w' : same_fs w w' -> no_creation w w'.
Proof. intros H t. unfold same_fs in H. now rewrite H. Qed.

Lemma unlink_ok (m m' : gmap Path node) (p : Path) :
  FS.unlink m p = Ok m' -> m' = delete (FS.entry p) m.
Proof.
  unfold FS.unlink. destruct (FS.lstat m p) as [[| |]|]; congruence.
Qed.

Lemma delete_target_no_creation relpath target_dir w :
  no_creation w (world_of (delete_target relpath target_dir w)).
Proof.
  destruct target_dir as [td|]; [|apply no_creation_refl].
  unfold delete_target, mbind, M_bind, read, mutate, emit.
  destruct (FS.exists_ _ _); [|apply no_creation_refl].
  destruct (FS.unlink _ _) as [m'|e] eqn:E; [|apply no_creation_refl].
  apply unlink_ok in E. subst m'. intros t Ht. simpl.
  apply lookup_delete_None. now right.
Qed.

Lemma handle_delete_no_creation st path mon_path w :
  no_creation w (world_of (__handle_delete st path mon_path w)).
Proof.
  unfold __handle_delete, mbind, M_bind, lift.
  destruct (PurePath.relative_to _ _) as [relpath|e]; [|apply no_creation_refl].
  apply (for_each_preserves no_creation).
  - apply no_creation_refl.
  - apply no_creation_trans.
  - intros x w0 _. apply delete_target_no_creation.
Qed.

Lemma oversized_same_world st event_path w :
  world_of (oversized st event_path w) = w.
Proof.
  unfold oversized, mbind, M_bind, read, read_result, lift.
  destruct (0 <? _size st); [|reflexivity].
  destruct (FS.exists_ _ _); [|reflexivity].
  destruct (FS.getsize_str _ _); reflexivity.
Qed.

Lemma excluded_same_world st event_path w :
  world_of (excluded re_findall_ignorecase st event_path w) = w.
Proof.
  unfold excluded, lift.
  destruct (String.eqb _ _); [reflexivity|].
  destruct (re_findall_ignorecase _ _); reflexivity.
Qed.

Lemma event_try_no_creation st text mon_path event_path w :
  no_creation w
    (world_of (event_try ALL_VIDEO ALL_SUBTITLE re_findall_ignorecase str_lower
                         st text mon_path event_path w)).
Proof.
  unfold event_try, mbind, M_bind, emit, read. cbn [fs out].
  set (w1 := mkWorld (fs w) _).
  assert (H1 : no_creation w w1) by (intros t Ht; exact Ht).
  destruct (negb _ && negb _); [exact H1|].
  pose proof (oversized_same_world st event_path w1) as Ho.
  destruct (oversized st event_path w1) as [big w2|e w2]; simpl in Ho; subst w2;
    [|exact H1].
  destruct big; [exact H1|].
  pose proof (excluded_same_world st event_path w1) as He.
  destruct (excluded _ st event_path w1) as [skip w2|e w2]; simpl in He; subst w2;
    [|exact H1].
  destruct skip; [exact H1|].
  destruct (bool_decide (text = Text_delete)).
  - eapply no_creation_trans; [exact H1|]. apply handle_delete_no_creation.
  - exact H1.
Qed.

(** [event_handler] never lets an exception out. *)
Lemma event_handler_returns st text mon_path event_path w :
  exists w', handle_event st text mon_path event_path w = Return tt w'.
Proof.
  unfold event_handler, with_lock, try_except.
  destruct (event_try _ _ _ _ _ _ _ _ _) as [[] w1|e w1].
  - eexists. reflexivity.
  - unfold event_except, mbind, M_bind, emit. eexists. reflexivity.
Qed.

Lemma event_handler_fs st text mon_path event_path w :
  fs (world_of (handle_event st text mon_path event_path w)) =
  fs (world_of (event_try ALL_VIDEO ALL_SUBTITLE re_findall_ignorecase str_lower
                          st text mon_path event_path
                          (mkWorld (fs w) (out w ++ [Lock_acquire])))).
Proof.
  unfold event_handler, with_lock, try_except, emit. cbn [world_of].
  destruct (event_try _ _ _ _ _ _ _ _ _) as [[] w1|e w1]; reflexivity.
Qed.

Lemma event_handler_no_creation st text mon_path event_path w :
  no_creation w (world_of (handle_event st text mon_path event_path w)).
Proof.
  intros t Ht. rewrite event_handler_fs.
  apply event_try_no_creation. exact Ht.
Qed.

(** An event whose path the exclude pattern matches is dropped before
    any handler runs. *)
Lemma excluded_event_same_fs st text mon_path event_path w :
  _exclude_keywords st <> "" ->
  re_findall_ignorecase (_exclude_keywords st) event_path = Ok true ->
  fs (world_of (handle_event st text mon_path event_path w)) = fs w.
Proof.
  intros Hne Hre. rewrite event_handler_fs.
  unfold event_try, mbind, M_bind, emit, read. cbn [fs out].
  set (w1 := mkWorld (fs w) _).
  destruct (negb _ && negb _); [reflexivity|].
  pose proof (oversized_same_world st event_path w1) as Ho.
  destruct (oversized st event_path w1) as [big w2|e w2]; simpl in Ho; subst w2;
    [|reflexivity].
  destruct big; [reflexivity|].
  unfold excluded. destruct (String.eqb_spec (_exclude_keywords st) ""); [contradiction|].
  rewrite Hre. reflexivity.
Qed.

(** *** The transition system *)

Lemma step_keeps_absent st (t : Path) (o : op) (w : world) :
  leaves_absent t o -> absent w t -> absent (engine_step st w o) t.
Proof.
  unfold absent. destruct o as [text mon_path event_path| |f]; simpl; intros Ho Ht.
  - now apply (event_handler_no_creation st text mon_path event_path w).
  - now apply (same_fs_no_creation w _ (sync_all_same_fs st w)).
  - now apply Ho.
Qed.

Lemma run_keeps_absent st (t : Path) (ops : list op) (w : world) :
  Forall (leaves_absent t) ops -> absent w t -> absent (engine_run st ops w) t.
Proof.
  unfold run. revert w. induction ops as [|o ops IH]; intros w Hops Ht; [exact Ht|].
  inversion Hops; subst. simpl. apply IH; [assumption|].
  now apply step_keeps_absent.
Qed.

(** C1.  When the exclude pattern is set and matches the path of a file,
    every event for that path leaves the filesystem as it is, and the
    file's place under a destination root, free at the start, stays free
    through any sequence of events, full resyncs and changes by other
    processes that do not themselves create it. *)
Theorem exclude_pattern_never_materialized
        st (event_path mon_path : string) (target_path relpath : Path) :
  _exclude_keywords st <> "" ->
  re_findall_ignorecase (_exclude_keywords st) event_path = Ok true ->
  In (mon_path, Some target_path) (_dirconf st) ->
  PurePath.relative_to (PurePath.of_str event_path) (PurePath.of_str mon_path)
    = Ok relpath ->
  (forall text watched w,
      fs (world_of (handle_event st text watched event_path w)) = fs w) /\
  (forall ops w,
      Forall (leaves_absent (PurePath.joinpath target_path relpath)) ops ->
      absent w (PurePath.joinpath target_path relpath) ->
      absent (engine_run st ops w) (PurePath.joinpath target_path relpath)).
Proof.
  intros Hne Hre _ _. split.
  - intros text watched w. now apply excluded_event_same_fs.
  - intros ops w. apply run_keeps_absent.
Qed.

(** *** The size threshold *)

Lemma getsize_exists (m : gmap Path node) (p : Path) (sz : Z) :
  FS.getsize m p = Ok sz -> FS.exists_ m p = true.
Proof.
  unfold FS.getsize, FS.exists_. destruct (FS.stat m p); [reflexivity | discriminate].
Qed.

Lemma getsize_str_exists (m : gmap Path node) (s : string) (sz : Z) :
  FS.getsize_str m s = Ok sz -> FS.exists_ m (PurePath.of_str s) = true.
Proof.
  unfold FS.getsize_str. destruct (String.eqb s ""); [discriminate|].
  destruct (FS.as_directory s && FS.is_file m (PurePath.of_str s)); [discriminate|].
  apply getsize_exists.
Qed.

Lemma oversized_true st event_path w sz :
  0 < _size st ->
  FS.getsize_str (fs w) event_path = Ok sz ->
  _size st * 1024 * 1024 < sz ->
  oversized st event_path w = Return true w.
Proof.
  intros Hpos Hsz Hbig. unfold oversized, mbind, M_bind, read, read_result.
  destruct (Z.ltb_spec 0 (_size st)); [|lia].
  rewrite (getsize_str_exists _ _ _ Hsz), Hsz. simpl. unfold mret, M_ret.
  destruct (Z.ltb_spec (_size st * 1024 * 1024) sz); [reflexivity | lia].
Qed.

(** With a positive threshold, an event for a file above it is dropped. *)
Lemma oversized_event_same_fs st text mon_path event_path w sz :
  0 < _size st ->
  FS.getsize_str (fs w) event_path = Ok sz ->
  _size st * 1024 * 1024 < sz ->
  fs (world_of (handle_event st text mon_path event_path w)) = fs w.
Proof.
  intros Hpos Hsz Hbig. rewrite event_handler_fs.
  unfold event_try, mbind, M_bind, emit, read. cbn [fs out].
  set (w1 := mkWorld (fs w) _).
  rewrite (getsize_str_exists _ _ _ Hsz). cbn [negb andb].
  rewrite (oversized_true st event_path w1 sz Hpos Hsz Hbig). reflexivity.
Qed.

(** A threshold of zero never rejects. *)
Lemma size_zero_unlimited st event_path w :
  _size st = 0 -> oversized st event_path w = Return false w.
Proof. intros H. unfold oversized. rewrite H. reflexivity. Qed.

(** An event that is not a deletion never changes the filesystem: when
    it passes the filters, [__handle_file] receives the event path as a
    [str] and fails on [path.exists()]. *)
Lemma create_event_same_fs st text mon_path event_path w :
  text <> Text_delete ->
  fs (world_of (handle_event st text mon_path event_path w)) = fs w.
Proof.
  intros Htext. rewrite event_handler_fs.
  unfold event_try, mbind, M_bind, emit, read. cbn [fs out].
  set (w1 := mkWorld (fs w) _).
  destruct (negb _ && negb _); [reflexivity|].
  pose proof (oversized_same_world st event_path w1) as Ho.
  destruct (oversized st event_path w1) as [big w2|e w2]; simpl in Ho; subst w2;
    [|reflexivity].
  destruct big; [reflexivity|].
  pose proof (excluded_same_world st event_path w1) as He.
  destruct (excluded _ st event_path w1) as [skip w2|e w2]; simpl in He; subst w2;
    [|reflexivity].
  destruct skip; [reflexivity|].
  rewrite bool_decide_eq_false_2 by exact Htext. reflexivity.
Qed.

(** *** The full resync stops at the first regular file *)

Lemma is_file_exists (m : gmap Path node) (p : Path) :
  FS.is_file m p = true -> FS.exists_ m p = true.
Proof.
  unfold FS.is_file, FS.exists_. destruct (FS.stat m p); [reflexivity | discriminate].
Qed.

Lemma sync_path_raises st mon_path target_path path w :
  FS.is_file (fs w) path = true ->
  from_table st target_path ->
  exists e, sync_path ALL_VIDEO ALL_SUBTITLE str_lower st mon_path target_path path w
            = Raise e w.
Proof.
  intros Hf Htab. unfold sync_path, mbind, M_bind, read. rewrite Hf.
  destruct (handle_file_raises st path mon_path target_path w
              (is_file_exists _ _ Hf) Htab) as (e & -> & _).
  now exists e.
Qed.

Lemma sync_path_skips st mon_path target_path path w :
  FS.is_file (fs w) path = false ->
  sync_path ALL_VIDEO ALL_SUBTITLE str_lower st mon_path target_path path w
  = Return tt w.
Proof. intros Hf. unfold sync_path, mbind, M_bind, read. now rewrite Hf. Qed.

Lemma walk_raises st mon_path target_path (paths : list Path) w :
  from_table st target_path ->
  (exists path, In path paths /\ FS.is_file (fs w) path = true) ->
  exists e, for_each (sync_path ALL_VIDEO ALL_SUBTITLE str_lower st mon_path target_path)
                     paths w = Raise e w.
Proof.
  intros Htab. induction paths as [|x paths IH]; intros (path & Hin & Hf).
  - destruct Hin.
  - rewrite for_each_cons. destruct (FS.is_file (fs w) x) eqn:Hx.
    + destruct (sync_path_raises st mon_path target_path x w Hx Htab) as (e & ->).
      now exists e.
    + rewrite sync_path_skips by exact Hx.
      apply IH. exists path. split; [|exact Hf].
      destruct Hin as [->|Hin]; [congruence | exact Hin].
Qed.

(** The exception of the first regular file leaves [sync_all]: the
    remaining files and mappings are not visited and nothing is
    reported. *)
Lemma sync_all_aborts st mon_path target_path rest w :
  _dirconf st = (mon_path, target_path) :: rest ->
  (exists path, In path (FS.rglob (fs w) (PurePath.of_str mon_path))
                /\ FS.is_file (fs w) path = true) ->
  exists e, resync st w
            = Raise e (mkWorld (fs w) (out w ++ [Log_info (Msg_sync_start mon_path)])).
Proof.
  intros Hd Hfile. unfold sync_all. rewrite Hd. rewrite for_each_cons.
  cbn [fst snd]. unfold sync_tree, mbind, M_bind, emit, read. cbn [fs out].
  set (w1 := mkWorld (fs w) _).
  assert (Htab : from_table st target_path).
  { apply (from_table_item st (mon_path, target_path)). rewrite Hd. now left. }
  destruct (walk_raises st mon_path target_path
              (FS.rglob (fs w) (PurePath.of_str mon_path)) w1 Htab Hfile) as (e & He).
  change (fs w) with (fs w1) in He |- *. rewrite He. now exists e.
Qed.

(** *** The deletion propagator, one destination at a time *)

Lemma delete_target_absent relpath target_dir w :
  FS.exists_ (fs w) (PurePath.joinpath target_dir relpath) = false ->
  delete_target relpath (Some target_dir) w = Return tt w.
Proof. intros H. unfold delete_target, mbind, M_bind, read. now rewrite H. Qed.

Lemma follow_unfold (n : nat) (m : gmap Path node) (p : Path) :
  FS.follow n m p =
  match FS.lstat m p with
  | Some (Symlink t) =>
      match n with
      | O => None
      | S n' => FS.follow n' m (PurePath.joinpath (PurePath.parent p) t)
      end
  | _ => Some p
  end.
Proof. destruct n; reflexivity. Qed.

Lemma exists_lstat (m : gmap Path node) (p : Path) :
  FS.exists_ m p = true -> exists n, FS.lstat m p = Some n.
Proof.
  unfold FS.exists_, FS.stat. rewrite follow_unfold.
  destruct (FS.lstat m p) as [n|] eqn:E; [now exists n|].
  rewrite E. discriminate.
Qed.

Lemma delete_target_present relpath target_dir w :
  FS.exists_ (fs w) (PurePath.joinpath target_dir relpath) = true ->
  FS.lstat (fs w) (PurePath.joinpath target_dir relpath) <> Some Dir ->
  delete_target relpath (Some target_dir) w
  = Return tt (mkWorld (delete (FS.entry (PurePath.joinpath target_dir relpath)) (fs w))
                       (out w ++ [Log_info (Msg_deleted
                                    (PurePath.joinpath target_dir relpath))])).
Proof.
  intros Hex Hnd. unfold delete_target, mbind, M_bind, read, mutate, emit, FS.unlink.
  rewrite Hex.
  destruct (exists_lstat _ _ Hex) as (n & Hl). rewrite Hl in Hnd |- *.
  destruct n; [reflexivity | congruence | reflexivity].
Qed.

(** A link whose referent is gone does not [exists()], so it stays. *)
Lemma delete_target_dangling relpath target_dir referent w :
  FS.lstat (fs w) (PurePath.joinpath target_dir relpath) = Some (Symlink referent) ->
  FS.exists_ (fs w) (PurePath.joinpath target_dir relpath) = false ->
  world_of (delete_target relpath (Some target_dir) w) = w.
Proof. intros _ H. now rewrite delete_target_absent. Qed.

(** *** Filesystem calls: what they leave in place *)

Lemma lstat_mono (m1 m2 : gmap Path node) (p : Path) (n : node) :
  m1 ⊆ m2 -> FS.lstat m1 p = Some n -> FS.lstat m2 p = Some n.
Proof.
  intros Hsub. unfold FS.lstat. destruct (parts p); [auto|].
  intros H. eapply lookup_weaken; eauto.
Qed.

Lemma follow_mono (m1 m2 : gmap Path node) (k : nat) :
  m1 ⊆ m2 ->
  forall p q n,
    FS.follow k m1 p = Some q -> FS.lstat m1 q = Some n -> FS.follow k m2 p = Some q.
Proof.
  intros Hsub. induction k as [|k IH]; intros p q n Hf Hq;
    rewrite follow_unfold in Hf; rewrite follow_unfold;
    destruct (FS.lstat m1 p) as [[d| |t]|] eqn:E;
    try rewrite (lstat_mono m1 m2 p _ Hsub E);
    try discriminate; try exact Hf; try (injection Hf as <-; congruence).
  eapply IH; eauto.
Qed.

Lemma stat_mono (m1 m2 : gmap Path node) (p : Path) (n : node) :
  m1 ⊆ m2 -> FS.stat m1 p = Some n -> FS.stat m2 p = Some n.
Proof.
  intros Hsub. unfold FS.stat.
  destruct (FS.follow FS.max_links m1 p) as [q|] eqn:E; [|discriminate].
  intros Hq. rewrite (follow_mono m1 m2 _ Hsub p q n E Hq).
  now apply (lstat_mono m1 m2).
Qed.

Lemma unlink_gone (m m' : gmap Path node) (p : Path) :
  FS.unlink m p = Ok m' -> FS.exists_ m' p = false.
Proof.
  intros H. pose proof (unlink_ok _ _ _ H) as ->.
  assert (Hp : parts p <> []).
  { unfold FS.unlink, FS.lstat in H. destruct (parts p); [discriminate | congruence]. }
  assert (Hl : FS.lstat (delete (FS.entry p) m) p = None).
  { unfold FS.lstat. destruct (parts p); [congruence|]. apply lookup_delete_eq. }
  unfold FS.exists_, FS.stat. rewrite follow_unfold, Hl, Hl. reflexivity.
Qed.

(** *** Mappings without a destination *)

Lemma split_no_sep (sep : ascii) (s : string) :
  PyStr.count sep s = 0%nat -> PyStr.split sep s = [s].
Proof.
  induction s as [|c s IH]; simpl; [reflexivity|].
  destruct (Ascii.eqb c sep); [discriminate|].
  intros H. now rewrite IH.
Qed.

Lemma split_mon_path_no_colon (line : string) :
  PyStr.count colon line = 0%nat -> split_mon_path is_windows line = Ok [line].
Proof.
  intros H. unfold split_mon_path. rewrite H.
  destruct is_windows; [reflexivity|]. now rewrite split_no_sep.
Qed.

Lemma dict_get_set_eq {V} (k : string) (v : V) (d : list (string * V)) :
  Dict.get k (Dict.set k v d) = Some v.
Proof.
  induction d as [|[k' v'] d IH]; simpl.
  - now rewrite String.eqb_refl.
  - destruct (String.eqb k k') eqn:E; simpl.
    + now rewrite String.eqb_refl.
    + now rewrite E.
Qed.

(** A line without a colon is stored with destination [None]. *)
Lemma line_without_colon_stores_none st (line : string) w :
  line <> "" ->
  PyStr.count colon line = 0%nat ->
  is_Some (_scheduler st) ->
  exists st' w',
    configure_line is_windows windows_is_relative_to st line w = Return st' w' /\
    Dict.get line (_dirconf st') = Some None.
Proof.
  intros Hne Hc [sch Hs]. unfold configure_line.
  destruct (String.eqb_spec line ""); [contradiction|].
  rewrite split_mon_path_no_colon by exact Hc.
  unfold mbind, M_bind, lift, mret, M_ret. cbn beta iota.
  destruct (_enabled _) eqn:En.
  - unfold schedule_monitor, mbind, M_bind, emit, lift, add_job. cbn.
    rewrite Hs. do 2 eexists. split; [reflexivity|]. cbn. apply dict_get_set_eq.
  - do 2 eexists. split; [reflexivity|]. cbn. apply dict_get_set_eq.
Qed.

(** C10.  A line without a colon is stored with destination [None]; for
    a mapping stored that way and an existing file under its source, the
    materializer raises and leaves the world untouched: called with the
    [Path] of the file it raises a type error from the
    destination-membership test when some mapping has a destination and
    an attribute error from [None.joinpath] otherwise, and called with the
    path as a [str] it raises an attribute error at once. *)
Theorem no_destination_raises st0 w0 st (line : string) (path : Path) w :
  line <> "" ->
  PyStr.count colon line = 0%nat ->
  is_Some (_scheduler st0) ->
  Dict.get line (_dirconf st) = Some None ->
  FS.exists_ (fs w) path = true ->
  PurePath.is_relative_to path (PurePath.of_str line) = true ->
  (exists st' w',
      configure_line is_windows windows_is_relative_to st0 line w0 = Return st' w' /\
      Dict.get line (_dirconf st') = Some None) /\
  handle_file st (Arg_path path) line (mjoin (Dict.get line (_dirconf st))) w
    = Raise (if has_destination st then TypeError else AttributeError) w /\
  (forall s,
      handle_file st (Arg_str s) line (mjoin (Dict.get line (_dirconf st))) w
      = Raise AttributeError w).
Proof.
  intros Hne Hc Hs Hget Hex Hrel. split; [|split].
  - now apply line_without_colon_stores_none.
  - rewrite Hget. cbn [mjoin option_join].
    unfold __handle_file, mbind, M_bind, read, lift. rewrite Hex. cbn [negb].
    rewrite dest_guard_spec. destruct (has_destination st); [reflexivity|].
    unfold PurePath.relative_to. rewrite Hrel. reflexivity.
  - reflexivity.
Qed.

(** *** Configuration *)

Lemma schedule_monitor_inv st mon_path w st' w' :
  schedule_monitor st mon_path w = Return st' w' ->
  _monitor_dirs st' = _monitor_dirs st /\
  _enabled st' = _enabled st /\
  scheduled st' = (scheduled st ++ [Job_start_monitor mon_path])%list.
Proof.
  unfold schedule_monitor, mbind, M_bind, emit, lift, add_job, scheduled.
  destruct (_scheduler st) as [sch|]; [|discriminate].
  intros [= <- _]. cbn. auto.
Qed.

(** One configuration line adds the watch session it asks for, when
    monitoring is enabled, and nothing else. *)
Lemma configure_line_inv st (line : string) w st' w' :
  configure_line is_windows windows_is_relative_to st line w = Return st' w' ->
  _monitor_dirs st' = _monitor_dirs st /\
  _enabled st' = _enabled st /\
  scheduled st' =
    (scheduled st ++
     if _enabled st
     then Job_start_monitor <$> accepted_source is_windows windows_is_relative_to line
     else [])%list.
Proof.
  unfold configure_line, accepted_source.
  destruct (String.eqb_spec line "") as [|Hne].
  { intros [= <- _]. destruct (_enabled st); cbn; rewrite app_nil_r; auto. }
  unfold mbind, M_bind, lift.
  destruct (split_mon_path is_windows line) as [paths|e] eqn:Es; [|discriminate].
  unfold mret, M_ret. cbn beta iota.
  destruct paths as [|p0 [|p1 rest]]; cbn beta iota zeta;
    cbn [line_nested line_source fmap option_fmap option_map];
    cbn [_enabled with_dirconf];
    destruct (_enabled st) eqn:En;
    try (intros [= <- _]; cbn; rewrite ?app_nil_r; auto).
  - intros H. apply schedule_monitor_inv in H. destruct H as (Hm & He & Hj).
    rewrite <- En. repeat split; assumption.
  - intros H. apply schedule_monitor_inv in H. destruct H as (Hm & He & Hj).
    rewrite <- En. repeat split; assumption.
  - destruct (target_in_mon_path _ _ _ _) eqn:Er.
    + unfold emit. intros [= <- _]. cbn. rewrite app_nil_r. auto.
    + intros H. apply schedule_monitor_inv in H. destruct H as (Hm & He & Hj).
      rewrite <- En. repeat split; assumption.
Qed.

Lemma configure_lines_inv (lines : list string) :
  forall st w st' w',
    configure_lines is_windows windows_is_relative_to st lines w = Return st' w' ->
    _monitor_dirs st' = _monitor_dirs st /\
    _enabled st' = _enabled st /\
    scheduled st' =
      (scheduled st ++
       if _enabled st
       then Job_start_monitor <$> accepted_sources is_windows windows_is_relative_to lines
       else [])%list.
Proof.
  induction lines as [|l lines IH]; intros st w st' w'; simpl.
  - intros [= <- _]. destruct (_enabled st); cbn; rewrite app_nil_r; auto.
  - unfold mbind, M_bind.
    destruct (configure_line is_windows windows_is_relative_to st l w)
      as [st1 w1|e w1] eqn:E1; [|discriminate].
    intros H. apply IH in H. apply configure_line_inv in E1.
    destruct H as (Hm & He & Hj), E1 as (Hm1 & He1 & Hj1).
    split; [congruence|]. split; [congruence|].
    rewrite Hj, Hj1, He1. destruct (_enabled st).
    + now rewrite fmap_app, app_assoc.
    + now rewrite !app_nil_r.
Qed.

Lemma start_scheduler_inv st :
  scheduled (start_scheduler st) = scheduled st /\
  _monitor_dirs (start_scheduler st) = _monitor_dirs st.
Proof.
  unfold start_scheduler, scheduled.
  destruct (_scheduler st) as [[js r]|] eqn:E; [|now rewrite E].
  cbn [jobs]. destruct js; [now rewrite E | split; reflexivity].
Qed.

(** Once the scheduler has been started when it holds a job, the watch
    sessions are those of the jobs it holds. *)
Lemma monitored_start st :
  monitored (start_scheduler st) = omap session_of (scheduled st).
Proof.
  unfold start_scheduler, monitored, scheduled.
  destruct (_scheduler st) as [[js r]|] eqn:E; [|now rewrite E].
  cbn [jobs]. destruct js as [|j js].
  - rewrite E. cbn. now destruct r.
  - reflexivity.
Qed.

Lemma sessions_of_jobs (srcs : list string) (tail : list job) :
  omap session_of ((Job_start_monitor <$> srcs) ++ tail)%list
  = (srcs ++ omap session_of tail)%list.
Proof.
  induction srcs as [|x srcs IH]; [reflexivity|].
  cbn [fmap list_fmap app omap list_omap session_of]. f_equal. exact IH.
Qed.

Lemma stop_service_inv st st1 :
  stop_service st = Ok st1 ->
  _enabled st1 = _enabled st /\ _onlyonce st1 = _onlyonce st /\
  _monitor_dirs st1 = _monitor_dirs st /\ _dirconf st1 = _dirconf st /\
  _observer st1 = [] /\ monitored st1 = [].
Proof.
  unfold stop_service, shutdown, monitored.
  destruct (_scheduler st) as [[js r]|] eqn:E; cbn.
  - destruct r; cbn; [|discriminate]. intros [= <-]. cbn. auto 10.
  - intros [= <-]. cbn. rewrite E. auto 10.
Qed.

(** Off Windows every line can be cut, so the loop over the lines
    returns, and with it [init_plugin] once [stop_service] has returned. *)
Lemma configure_lines_returns (lines : list string) :
  forall st w,
    is_Some (_scheduler st) ->
    exists st' w',
      configure_lines false windows_is_relative_to st lines w = Return st' w' /\
      is_Some (_scheduler st').
Proof.
  induction lines as [|l lines IH]; intros st w Hs; simpl.
  - now exists st, w.
  - assert (H1 : exists st1 w1,
               configure_line false windows_is_relative_to st l w = Return st1 w1 /\
               is_Some (_scheduler st1)).
    { unfold configure_line. destruct (String.eqb l ""); [now exists st, w|].
      unfold split_mon_path, mbind, M_bind, lift, mret, M_ret. cbn beta iota.
      assert (Hsched : forall (s0 : FileSoftLink) (mp : string) (w0 : world),
                 is_Some (_scheduler s0) ->
                 exists s1 w1, schedule_monitor s0 mp w0 = Return s1 w1 /\
                               is_Some (_scheduler s1)).
      { intros s0 mp w0 [sch Hsch].
        unfold schedule_monitor, mbind, M_bind, emit, lift, add_job. rewrite Hsch.
        do 2 eexists. split; [reflexivity|]. cbn. eauto. }
      destruct (PyStr.split colon l) as [|p0 [|p1 rest]]; cbn beta iota zeta;
        cbn [fmap option_fmap option_map]; cbn [_enabled with_dirconf];
        destruct (_enabled st);
        try (do 2 eexists; split; [reflexivity | exact Hs]);
        try (apply Hsched; exact Hs).
      destruct (target_in_mon_path _ _ _ _); [|apply Hsched; exact Hs].
      unfold emit. do 2 eexists. split; [reflexivity | exact Hs]. }
    destruct H1 as (st1 & w1 & E1 & Hs1). unfold mbind, M_bind. rewrite E1.
    now apply IH.
Qed.

Lemma init_plugin_returns cfg st w st1 :
  stop_service (loaded cfg st) = Ok st1 ->
  exists st' w', init_plugin false windows_is_relative_to cfg st w = Return st' w'.
Proof.
  intros Hstop. unfold init_plugin. fold (loaded cfg st).
  unfold mbind at 1, M_bind at 1, lift at 1. rewrite Hstop.
  change (mret (M := M) st1 w) with (Return st1 w). cbn beta iota.
  destruct (_enabled st1 || _onlyonce st1); [|now exists st1, w].
  unfold mbind, M_bind.
  destruct (configure_lines_returns
              (PyStr.split newline
                 (_monitor_dirs (with_scheduler st1 (Some (mkScheduler [] false)))))
              (with_scheduler st1 (Some (mkScheduler [] false))) w)
    as (st3 & w3 & E & [sch Hs]); [cbn; eauto|].
  rewrite E. destruct (_onlyonce st3).
  - unfold emit, lift, add_job, mret, M_ret. cbn [fs out]. rewrite Hs. eauto.
  - unfold mret, M_ret. eauto.
Qed.

(** C6, as the code has it.  A line whose destination is its source or
    lies inside it starts no watch session: when [init_plugin] returns, the
    watch sessions it has scheduled are, in the order of the lines, the
    sources of the non-empty lines whose destination is missing or does
    not lie in the source, one session for each such line; with monitoring
    disabled there is none. *)
Theorem watch_sessions_of_lines cfg st w st' w' :
  init_plugin is_windows windows_is_relative_to cfg st w = Return st' w' ->
  monitored st' =
    if _enabled st'
    then accepted_sources is_windows windows_is_relative_to
                          (PyStr.split newline (_monitor_dirs st'))
    else [].
Proof.
  unfold init_plugin. fold (loaded cfg st). unfold mbind at 1, M_bind at 1, lift at 1.
  destruct (stop_service (loaded cfg st)) as [st1|e] eqn:Est; [|discriminate].
  apply stop_service_inv in Est. destruct Est as (He1 & _ & _ & _ & _ & Hidle).
  change (mret (M := M) st1 w) with (Return st1 w). cbn beta iota.
  destruct (_enabled st1 || _onlyonce st1) eqn:Hgate.
  - unfold mbind, M_bind.
    set (st2 := with_scheduler st1 _).
    destruct (configure_lines is_windows windows_is_relative_to st2 _ w)
      as [st3 w3|e w3] eqn:E; [|discriminate].
    apply configure_lines_inv in E. destruct E as (Hm & He & Hj).
    change (scheduled st2) with (@nil job) in Hj.
    change (_enabled st2) with (_enabled st1) in He, Hj.
    change (_monitor_dirs st2) with (_monitor_dirs st1) in Hm, Hj.
    cbn [app] in Hj.
    assert (Hfin : forall st4 tail,
               _monitor_dirs st4 = _monitor_dirs st3 ->
               _enabled st4 = _enabled st3 ->
               scheduled st4 = (scheduled st3 ++ tail)%list ->
               omap session_of tail = [] ->
               monitored (start_scheduler st4) =
               if _enabled (start_scheduler st4)
               then accepted_sources is_windows windows_is_relative_to
                      (PyStr.split newline (_monitor_dirs (start_scheduler st4)))
               else []).
    { intros st4 tail Hm4 He4 Hs4 Htail.
      rewrite monitored_start. destruct (start_scheduler_inv st4) as [_ Hs2].
      rewrite Hs2, Hm4, Hm.
      assert (Hen : _enabled (start_scheduler st4) = _enabled st1).
      { unfold start_scheduler. destruct (_scheduler st4) as [[js r]|]; [|congruence].
        cbn [jobs]. destruct js; cbn; congruence. }
      rewrite Hen, Hs4, Hj. destruct (_enabled st1).
      - now rewrite sessions_of_jobs, Htail, app_nil_r.
      - exact Htail. }
    destruct (_onlyonce st3).
    + unfold emit, lift, add_job, mret, M_ret. cbn [fs out].
      destruct (_scheduler st3) as [sch|] eqn:Es; [|discriminate].
      intros [= <- _]. apply (Hfin _ [Job_sync_all]); try reflexivity.
      unfold scheduled. cbn. now rewrite Es.
    + unfold mret, M_ret. intros [= <- _]. apply (Hfin _ []); try reflexivity.
      now rewrite app_nil_r.
  - unfold mret, M_ret. intros [= <- _]. rewrite Hidle.
    apply orb_false_elim in Hgate. destruct Hgate as [-> _]. reflexivity.
Qed.

(** X23.  A line whose destination is its source or lies inside it is
    stored in the table all the same, and schedules nothing. *)
Lemma nested_line_stored st (line p0 p1 : string) (rest : list string) w :
  line <> "" ->
  split_mon_path is_windows line = Ok (p0 :: p1 :: rest) ->
  target_in_mon_path is_windows windows_is_relative_to p1 p0 = true ->
  exists st' w',
    configure_line is_windows windows_is_relative_to st line w = Return st' w' /\
    Dict.get p0 (_dirconf st') = Some (Some (PurePath.of_str p1)) /\
    scheduled st' = scheduled st.
Proof.
  intros Hne Hs Hr. unfold configure_line.
  destruct (String.eqb_spec line ""); [contradiction|].
  rewrite Hs. unfold mbind, M_bind, lift, mret, M_ret, emit. cbn beta iota zeta.
  match goal with |- context [_enabled ?s] => destruct (_enabled s) end.
  - rewrite Hr. do 2 eexists. split; [reflexivity|]. cbn. split; [|reflexivity].
    apply dict_get_set_eq.
  - do 2 eexists. split; [reflexivity|]. cbn. split; [|reflexivity].
    apply dict_get_set_eq.
Qed.

(** *** The global lock *)

Lemma quiet_refl w : quiet w w.
Proof. exists []. split; [now rewrite app_nil_r | constructor]. Qed.

Lemma quiet_trans w1 w2 w3 : quiet w1 w2 -> quiet w2 w3 -> quiet w1 w3.
Proof.
  intros (m1 & H1 & F1) (m2 & H2 & F2). exists (m1 ++ m2)%list. split.
  - now rewrite H2, H1, <- app_assoc.
  - apply Forall_app. now split.
Qed.

Lemma quiet_emit (o : output) w :
  lock_free o -> quiet w (mkWorld (fs w) (out w ++ [o])).
Proof. intros H. exists [o]. split; [reflexivity | now constructor]. Qed.

Lemma quiet_same_out w w' : out w' = out w -> quiet w w'.
Proof. intros H. exists []. split; [now rewrite app_nil_r | constructor]. Qed.

Lemma delete_target_quiet relpath target_dir w :
  quiet w (world_of (delete_target relpath target_dir w)).
Proof.
  destruct target_dir as [td|]; [|apply quiet_refl].
  unfold delete_target, mbind, M_bind, read, mutate, emit.
  destruct (FS.exists_ _ _); [|apply quiet_refl].
  destruct (FS.unlink _ _) as [m'|e]; [|apply quiet_refl].
  cbn [world_of fs out]. exists [Log_info (Msg_deleted (PurePath.joinpath td relpath))].
  split; [reflexivity | now repeat constructor].
Qed.

Lemma handle_delete_quiet st path mon_path w :
  quiet w (world_of (__handle_delete st path mon_path w)).
Proof.
  unfold __handle_delete, mbind, M_bind, lift.
  destruct (PurePath.relative_to _ _) as [relpath|e]; [|apply quiet_refl].
  apply (for_each_preserves quiet).
  - apply quiet_refl.
  - apply quiet_trans.
  - intros x w0 _. apply delete_target_quiet.
Qed.

Lemma event_try_quiet st text mon_path event_path w :
  quiet w
    (world_of (event_try ALL_VIDEO ALL_SUBTITLE re_findall_ignorecase str_lower
                         st text mon_path event_path w)).
Proof.
  unfold event_try, mbind, M_bind, emit, read. cbn [fs out].
  set (w1 := mkWorld (fs w) _).
  assert (H1 : quiet w w1) by (now apply quiet_emit).
  assert (H2 : forall o, lock_free o -> quiet w (mkWorld (fs w1) (out w1 ++ [o]))).
  { intros o Ho. eapply quiet_trans; [exact H1 | now apply quiet_emit]. }
  destruct (negb _ && negb _); [exact H1|].
  pose proof (oversized_same_world st event_path w1) as Ho.
  destruct (oversized st event_path w1) as [big w2|e w2]; simpl in Ho; subst w2;
    [|exact H1].
  destruct big; [now apply H2|].
  pose proof (excluded_same_world st event_path w1) as He.
  destruct (excluded _ st event_path w1) as [skip w2|e w2]; simpl in He; subst w2;
    [|exact H1].
  destruct skip; [now apply H2|].
  destruct (bool_decide (text = Text_delete)).
  - eapply quiet_trans; [exact H1|]. apply handle_delete_quiet.
  - exact H1.
Qed.

(** X21.  [event_handler] takes the lock first and gives it back last,
    whether its body returns or raises, and touches it nowhere in
    between. *)
Lemma event_handler_holds_lock st text mon_path event_path w :
  exists mid,
    out (world_of (handle_event st text mon_path event_path w))
    = (out w ++ [Lock_acquire] ++ mid ++ [Lock_release])%list /\
    Forall lock_free mid.
Proof.
  unfold event_handler, with_lock, try_except, emit. cbn [world_of].
  set (w1 := mkWorld (fs w) _).
  destruct (event_try_quiet st text mon_path event_path w1) as (mid & Hm & HF).
  destruct (event_try _ _ _ _ _ _ _ _ w1) as [[] w2|e w2]; cbn [world_of] in Hm.
  - exists mid. cbn [out]. split; [|exact HF].
    rewrite Hm. subst w1. cbn [out]. now rewrite <- !app_assoc.
  - unfold event_except, mbind, M_bind, emit. cbn [out fs].
    exists (mid ++ [Log_error (Msg_event_failed event_path text e);
                    System_message (Msg_event_failed event_path text e)])%list.
    split.
    + rewrite Hm. subst w1. cbn [out]. now rewrite <- !app_assoc.
    + apply Forall_app. split; [exact HF | now repeat constructor].
Qed.

Lemma sync_tree_quiet st mon_path target_path w :
  from_table st target_path ->
  quiet w (world_of (resync_tree st mon_path target_path w)).
Proof.
  intros Htab. unfold sync_tree, mbind, M_bind, emit, read.
  set (w1 := mkWorld (fs w) (out w ++ [Log_info (Msg_sync_start mon_path)])).
  apply (quiet_trans w w1); [now apply quiet_emit|].
  change (quiet w1 (world_of (for_each
    (sync_path ALL_VIDEO ALL_SUBTITLE str_lower st mon_path target_path)
    (FS.rglob (fs w1) (PurePath.of_str mon_path)) w1))).
  apply (for_each_preserves quiet).
  - apply quiet_refl.
  - apply quiet_trans.
  - intros x w0 _. rewrite sync_path_no_effect by exact Htab. apply quiet_refl.
Qed.

(** X22.  [sync_all] never touches the lock: whatever it logs, no
    acquisition and no release is among it. *)
Lemma sync_all_takes_no_lock st w : quiet w (world_of (resync st w)).
Proof.
  unfold sync_all. apply (for_each_preserves quiet).
  - apply quiet_refl.
  - apply quiet_trans.
  - intros item w0 Hin. apply sync_tree_quiet. now apply from_table_item.
Qed.

(** *** Event handling, case by case *)

(** [event_handler] in terms of its [try] suite. *)
Lemma event_handler_of_try st text mon_path event_path w :
  handle_event st text mon_path event_path w =
  match event_try ALL_VIDEO ALL_SUBTITLE re_findall_ignorecase str_lower
                  st text mon_path event_path
                  (mkWorld (fs w) (out w ++ [Lock_acquire])) with
  | Return _ w1 => Return tt (mkWorld (fs w1) (out w1 ++ [Lock_release]))
  | Raise e w1 =>
      Return tt (mkWorld (fs w1)
                         ((out w1 ++ failure_report text event_path e) ++ [Lock_release]))
  end.
Proof.
  unfold event_handler, with_lock, try_except, emit. cbn [world_of].
  destruct (event_try _ _ _ _ _ _ _ _ _) as [[] w1|e w1]; [reflexivity|].
  unfold event_except, mbind, M_bind, emit. cbn [fs out world_of].
  now rewrite <- !app_assoc.
Qed.

Lemma oversized_false st event_path w :
  within_size st (fs w) event_path -> oversized st event_path w = Return false w.
Proof.
  intros H. unfold oversized, mbind, M_bind, read, read_result, mret, M_ret.
  destruct (Z.ltb_spec 0 (_size st)) as [Hpos|]; [|reflexivity].
  destruct H as [H|[H|(sz & Hsz & Hle)]]; [lia | now rewrite H |].
  rewrite (getsize_str_exists _ _ _ Hsz), Hsz. cbn [lift].
  unfold mret, M_ret. destruct (Z.ltb_spec (_size st * 1024 * 1024) sz); [lia | reflexivity].
Qed.

(** X1.  An event for a path that is not there, other than a deletion, is
    dropped: the handler logs the event and returns, nothing is reported
    and the filesystem is untouched. *)
Theorem transient_event_dropped st text mon_path event_path w :
  FS.exists_ (fs w) (PurePath.of_str event_path) = false ->
  text <> Text_delete ->
  handle_event st text mon_path event_path w
  = Return tt (mkWorld (fs w) (out w ++ event_trace text event_path [])).
Proof.
  intros Hex Htext. rewrite event_handler_of_try.
  unfold event_try, mbind, M_bind, emit, read. cbn [fs out].
  rewrite Hex, (bool_decide_eq_false_2 _ Htext). cbn [negb andb].
  unfold pass, event_trace. cbn [fs out]. now rewrite <- !app_assoc.
Qed.

(** X2.  With a positive threshold, an event for a path whose size is
    above [_size] megabytes is dropped after the size test: the
    handler logs the event and the rejection, reports nothing and leaves
    the filesystem untouched, whatever the kind of the event. *)
Theorem oversized_event_dropped st text mon_path event_path w sz :
  0 < _size st ->
  FS.getsize_str (fs w) event_path = Ok sz ->
  _size st * 1024 * 1024 < sz ->
  handle_event st text mon_path event_path w
  = Return tt (mkWorld (fs w)
                 (out w ++ event_trace text event_path
                                       [Log_info (Msg_oversize event_path)])).
Proof.
  intros Hpos Hsz Hbig. rewrite event_handler_of_try.
  unfold event_try, mbind, M_bind, emit, read. cbn [fs out].
  set (w1 := mkWorld (fs w) _).
  rewrite (getsize_str_exists _ _ _ Hsz). cbn [negb andb].
  rewrite (oversized_true st event_path w1 sz Hpos Hsz Hbig).
  subst w1. unfold event_trace. cbn [fs out]. now rewrite <- !app_assoc.
Qed.

Lemma oversized_raises st event_path w e :
  0 < _size st ->
  FS.exists_ (fs w) (PurePath.of_str event_path) = true ->
  FS.getsize_str (fs w) event_path = Err e ->
  oversized st event_path w = Raise e w.
Proof.
  intros Hpos Hex Hsz. unfold oversized, mbind, M_bind, read, read_result.
  destruct (Z.ltb_spec 0 (_size st)); [|lia].
  rewrite Hex, Hsz. reflexivity.
Qed.

(** X29.  The size test hands the event's path string to
    [os.path.getsize] as it is: when that call raises (on a regular file
    written with a trailing slash, say), the event is reported as failed
    with that error and nothing is done for it. *)
Theorem size_test_failure_reported st text mon_path event_path w e :
  0 < _size st ->
  FS.exists_ (fs w) (PurePath.of_str event_path) = true ->
  FS.getsize_str (fs w) event_path = Err e ->
  handle_event st text mon_path event_path w
  = Return tt (mkWorld (fs w)
                 (out w ++ event_trace text event_path
                                       (failure_report text event_path e))).
Proof.
  intros Hpos Hex Hsz. rewrite event_handler_of_try.
  unfold event_try, mbind, M_bind, emit, read. cbn [fs out].
  set (w1 := mkWorld (fs w) _).
  rewrite Hex. cbn [negb andb].
  rewrite (oversized_raises st event_path w1 e Hpos Hex Hsz).
  subst w1. unfold event_trace, failure_report.
  cbn [fs out]. now rewrite <- !app_assoc.
Qed.

(** X3.  A creation or a move that passes the three filters is never
    carried out: [__handle_file] is handed the path as a [str], raises
    [AttributeError], and the handler reports the failure on the log and
    on the message channel and leaves the filesystem untouched. *)
Theorem passed_event_fails st text mon_path event_path w :
  text <> Text_delete ->
  FS.exists_ (fs w) (PurePath.of_str event_path) = true ->
  within_size st (fs w) event_path ->
  (_exclude_keywords st = "" \/
   re_findall_ignorecase (_exclude_keywords st) event_path = Ok false) ->
  handle_event st text mon_path event_path w
  = Return tt (mkWorld (fs w)
                 (out w ++ event_trace text event_path
                                       (failure_report text event_path AttributeError))).
Proof.
  intros Htext Hex Hsize Hexc. rewrite event_handler_of_try.
  unfold event_try, mbind, M_bind, emit, read. cbn [fs out].
  set (w1 := mkWorld (fs w) _).
  rewrite Hex. cbn [negb andb].
  rewrite (oversized_false st event_path w1 Hsize).
  assert (He : excluded re_findall_ignorecase st event_path w1 = Return false w1).
  { unfold excluded. destruct Hexc as [->|H]; [reflexivity|].
    destruct (String.eqb _ _); [reflexivity | now rewrite H]. }
  rewrite He, (bool_decide_eq_false_2 _ Htext).
  cbn [__handle_file raise]. subst w1. unfold event_trace, failure_report.
  cbn [fs out]. now rewrite <- !app_assoc.
Qed.

(** X4.  When the exclude pattern is set and the regular-expression engine
    rejects it, every event that reaches the exclude test is reported as
    failed with that error, and nothing is done for it: no deletion is
    propagated either. *)
Theorem invalid_pattern_reported st text mon_path event_path w e :
  _exclude_keywords st <> "" ->
  re_findall_ignorecase (_exclude_keywords st) event_path = Err e ->
  (FS.exists_ (fs w) (PurePath.of_str event_path) = true \/ text = Text_delete) ->
  within_size st (fs w) event_path ->
  handle_event st text mon_path event_path w
  = Return tt (mkWorld (fs w)
                 (out w ++ event_trace text event_path
                                       (failure_report text event_path e))).
Proof.
  intros Hne Hre Hpass Hsize. rewrite event_handler_of_try.
  unfold event_try, mbind, M_bind, emit, read. cbn [fs out].
  set (w1 := mkWorld (fs w) _).
  assert (Hgate : negb (FS.exists_ (fs w) (PurePath.of_str event_path))
                  && negb (bool_decide (text = Text_delete)) = false).
  { destruct Hpass as [->| ->]; [reflexivity|].
    rewrite bool_decide_eq_true_2 by reflexivity. apply andb_false_r. }
  rewrite Hgate, (oversized_false st event_path w1 Hsize).
  unfold excluded. destruct (String.eqb_spec (_exclude_keywords st) ""); [contradiction|].
  rewrite Hre. cbn [lift raise]. subst w1. unfold event_trace, failure_report.
  cbn [fs out]. now rewrite <- !app_assoc.
Qed.

(** *** The deletion propagator as a whole *)

Lemma exists_antimono (m1 m2 : gmap Path node) (p : Path) :
  m1 ⊆ m2 -> FS.exists_ m2 p = false -> FS.exists_ m1 p = false.
Proof.
  intros Hsub H2. unfold FS.exists_ in *.
  destruct (FS.stat m1 p) as [n|] eqn:E; [|reflexivity].
  now rewrite (stat_mono m1 m2 p n Hsub E) in H2.
Qed.

Lemma delete_target_returns relpath target_dir w w' :
  delete_target relpath target_dir w = Return tt w' ->
  fs w' ⊆ fs w /\
  forall td, target_dir = Some td ->
             FS.exists_ (fs w') (PurePath.joinpath td relpath) = false.
Proof.
  destruct target_dir as [td|]; unfold delete_target, mbind, M_bind, read, mutate, emit, pass.
  - destruct (FS.exists_ (fs w) (PurePath.joinpath td relpath)) eqn:Hex.
    + destruct (FS.unlink _ _) as [m'|e] eqn:Eu; [|discriminate].
      intros [= <-]. cbn [fs]. split.
      * rewrite (unlink_ok _ _ _ Eu). apply delete_subseteq.
      * intros ? [= <-]. now apply unlink_gone in Eu.
    + intros [= <-]. split; [reflexivity|]. now intros ? [= <-].
  - intros [= <-]. split; [reflexivity | discriminate].
Qed.

Lemma delete_loop_returns relpath (l : list (option Path)) :
  forall w w',
    for_each (delete_target relpath) l w = Return tt w' ->
    fs w' ⊆ fs w /\
    forall td, In (Some td) l ->
               FS.exists_ (fs w') (PurePath.joinpath td relpath) = false.
Proof.
  induction l as [|x l IH]; intros w w'.
  - intros [= <-]. split; [reflexivity | intros ? []].
  - rewrite for_each_cons.
    destruct (delete_target relpath x w) as [[] w1|e w1] eqn:E1; [|discriminate].
    intros H. apply IH in H. apply delete_target_returns in E1.
    destruct H as [Hsub Hgone], E1 as [Hsub1 Hgone1].
    split; [exact (transitivity Hsub Hsub1)|].
    intros td [->|Hin]; [|now apply Hgone].
    apply (exists_antimono _ _ _ Hsub). now apply Hgone1.
Qed.

Lemma delete_loop_noop relpath (l : list (option Path)) w :
  (forall td, In (Some td) l ->
              FS.exists_ (fs w) (PurePath.joinpath td relpath) = false) ->
  for_each (delete_target relpath) l w = Return tt w.
Proof.
  induction l as [|x l IH]; intros H; [reflexivity|].
  rewrite for_each_cons. destruct x as [td|].
  - rewrite delete_target_absent by (apply H; now left).
    apply IH. intros td' Hin. apply H. now right.
  - cbn [delete_target]. unfold pass. apply IH. intros td' Hin. apply H. now right.
Qed.

(** X5.  When the propagator returns, the path of the deleted file no
    longer resolves under any destination root of the table. *)
Theorem handle_delete_clears_targets st path mon_path relpath w w' :
  PurePath.relative_to (PurePath.of_str path) (PurePath.of_str mon_path) = Ok relpath ->
  __handle_delete st path mon_path w = Return tt w' ->
  forall target_dir,
    In (Some target_dir) (Dict.values (_dirconf st)) ->
    FS.exists_ (fs w') (PurePath.joinpath target_dir relpath) = false.
Proof.
  intros Hrel. unfold __handle_delete, mbind, M_bind. rewrite Hrel. cbn [lift].
  unfold mret, M_ret. intros H. now apply delete_loop_returns in H.
Qed.

(** X6.  Deletion propagation is idempotent: after a run that returned, a
    second run for the same path returns and changes nothing, not even the
    log. *)
Theorem handle_delete_idempotent st path mon_path w w' :
  __handle_delete st path mon_path w = Return tt w' ->
  __handle_delete st path mon_path w' = Return tt w'.
Proof.
  unfold __handle_delete, mbind, M_bind.
  destruct (PurePath.relative_to _ _) as [relpath|e]; cbn [lift]; [|discriminate].
  unfold mret, M_ret. intros H. apply delete_loop_returns in H.
  apply delete_loop_noop. apply H.
Qed.


(** *** The full resync as a whole *)

Lemma rglob_relative (m : gmap Path node) (root path : Path) :
  In path (FS.rglob m root) -> PurePath.is_relative_to path root = true.
Proof.
  unfold FS.rglob. intros H. apply list_elem_of_In, list_elem_of_fmap in H.
  destruct H as (k & -> & Hk). apply list_elem_of_In, filter_In in Hk.
  destruct Hk as [_ Hk]. apply andb_prop in Hk. destruct Hk as [Hk _].
  unfold PurePath.is_relative_to in *. cbn [anchor parts].
  rewrite bool_decide_eq_true_2 by reflexivity.
  apply andb_prop in Hk. destruct Hk as [_ Hk].
  unfold FS.entry in Hk. now destruct (anchor root).
Qed.

Lemma sync_path_raises_exact st mon_path target_path path w :
  In (mon_path, target_path) (_dirconf st) ->
  PurePath.is_relative_to path (PurePath.of_str mon_path) = true ->
  FS.is_file (fs w) path = true ->
  sync_path ALL_VIDEO ALL_SUBTITLE str_lower st mon_path target_path path w
  = Raise (materializer_error st) w.
Proof.
  intros Hin Hrel Hf. unfold sync_path, mbind, M_bind, read. rewrite Hf.
  unfold __handle_file, mbind, M_bind, read, lift.
  rewrite (is_file_exists _ _ Hf). cbn [negb]. rewrite dest_guard_spec.
  unfold materializer_error. destruct (has_destination st) eqn:Hd; [reflexivity|].
  destruct (from_table_item st _ Hin) as [Hn|Hn]; [|congruence].
  cbn [snd] in Hn. subst target_path.
  unfold PurePath.relative_to. rewrite Hrel. reflexivity.
Qed.

Lemma walk_raises_exact st mon_path target_path (paths : list Path) w :
  In (mon_path, target_path) (_dirconf st) ->
  (forall path, In path paths ->
                PurePath.is_relative_to path (PurePath.of_str mon_path) = true) ->
  (exists path, In path paths /\ FS.is_file (fs w) path = true) ->
  for_each (sync_path ALL_VIDEO ALL_SUBTITLE str_lower st mon_path target_path) paths w
  = Raise (materializer_error st) w.
Proof.
  intros Hin. induction paths as [|x paths IH]; intros Hrel (path & Hp & Hf).
  - destruct Hp.
  - rewrite for_each_cons. destruct (FS.is_file (fs w) x) eqn:Hx.
    + rewrite sync_path_raises_exact; auto. apply Hrel. now left.
    + rewrite sync_path_skips by exact Hx. apply IH.
      * intros y Hy. apply Hrel. now right.
      * exists path. split; [|exact Hf]. destruct Hp as [->|Hp]; [congruence | exact Hp].
Qed.

Lemma walk_without_files st mon_path target_path (paths : list Path) w :
  (forall path, In path paths -> FS.is_file (fs w) path = false) ->
  for_each (sync_path ALL_VIDEO ALL_SUBTITLE str_lower st mon_path target_path) paths w
  = Return tt w.
Proof.
  induction paths as [|x paths IH]; intros H; [reflexivity|].
  rewrite for_each_cons, sync_path_skips by (apply H; now left).
  apply IH. intros y Hy. apply H. now right.
Qed.

Lemma sync_tree_without_files st mon_path target_path w :
  tree_without_files (fs w) mon_path ->
  resync_tree st mon_path target_path w
  = Return tt (mkWorld (fs w) (out w ++ [Log_info (Msg_sync_start mon_path)])).
Proof.
  intros H. unfold sync_tree, mbind, M_bind, emit, read. cbn [fs out].
  now rewrite walk_without_files.
Qed.

Lemma sync_tree_with_file st mon_path target_path w :
  In (mon_path, target_path) (_dirconf st) ->
  tree_has_file (fs w) mon_path ->
  resync_tree st mon_path target_path w
  = Raise (materializer_error st)
          (mkWorld (fs w) (out w ++ [Log_info (Msg_sync_start mon_path)])).
Proof.
  intros Hin H. unfold sync_tree, mbind, M_bind, emit, read. cbn [fs out].
  rewrite walk_raises_exact; auto.
  intros path Hp. now apply rglob_relative in Hp.
Qed.

Lemma sync_loop_without_files st (items : list (string * option Path)) :
  forall w,
    (forall item, In item items -> tree_without_files (fs w) (fst item)) ->
    for_each (fun item => resync_tree st (fst item) (snd item)) items w
    = Return tt (mkWorld (fs w) (out w ++ sync_starts items)).
Proof.
  induction items as [|item items IH]; intros w H.
  - unfold sync_starts. cbn. rewrite app_nil_r. now destruct w.
  - rewrite for_each_cons, sync_tree_without_files by (apply H; now left).
    rewrite IH by (intros i Hi; apply H; now right).
    cbn [fs out]. unfold sync_starts. cbn [fmap list_fmap]. now rewrite <- app_assoc.
Qed.

(** X9.  The full resync never writes: whatever the table and the trees,
    and however it ends, the filesystem after [sync_all] is the filesystem
    before it. *)
Theorem resync_never_writes st w : fs (world_of (resync st w)) = fs w.
Proof. apply sync_all_same_fs. Qed.

(** X10.  When no tree of the table holds a regular file, [sync_all]
    returns, having logged the start of every mapping in the order of the
    table and nothing else. *)
Theorem resync_of_empty_trees st w :
  (forall item, In item (_dirconf st) -> tree_without_files (fs w) (fst item)) ->
  resync st w = Return tt (mkWorld (fs w) (out w ++ sync_starts (_dirconf st))).
Proof. intros H. unfold sync_all. now apply sync_loop_without_files. Qed.

Lemma sync_loop_stops st (before after : list (string * option Path))
      (item : string * option Path) :
  In item (_dirconf st) ->
  forall w,
    (forall i, In i before -> tree_without_files (fs w) (fst i)) ->
    tree_has_file (fs w) (fst item) ->
    for_each (fun i => resync_tree st (fst i) (snd i)) (before ++ item :: after) w
    = Raise (materializer_error st)
            (mkWorld (fs w) (out w ++ sync_starts (before ++ [item]))).
Proof.
  intros Hin. induction before as [|b before IH]; intros w Hbefore Hfile.
  - cbn [app]. rewrite for_each_cons.
    destruct item as [mon_path target_path]. cbn [fst snd] in *.
    rewrite sync_tree_with_file by assumption. reflexivity.
  - cbn [app]. rewrite for_each_cons.
    rewrite sync_tree_without_files by (apply Hbefore; now left).
    rewrite IH.
    + cbn [fs out]. unfold sync_starts. cbn [fmap list_fmap app].
      now rewrite <- app_assoc.
    + intros i Hi. apply Hbefore. now right.
    + exact Hfile.
Qed.

(** X11.  [sync_all] stops at the first mapping whose tree holds a regular
    file: it raises [TypeError] when some mapping has a destination and
    [AttributeError] otherwise, having logged the start of the mappings up
    to that one; the mappings after it are never walked. *)
Theorem resync_stops_at_first_file st w
        (before after : list (string * option Path)) (item : string * option Path) :
  _dirconf st = (before ++ item :: after)%list ->
  (forall i, In i before -> tree_without_files (fs w) (fst i)) ->
  tree_has_file (fs w) (fst item) ->
  resync st w
  = Raise (materializer_error st)
          (mkWorld (fs w) (out w ++ sync_starts (before ++ [item]))).
Proof.
  intros Hd Hbefore Hfile. unfold sync_all.
  assert (Hin : In item (_dirconf st)) by (rewrite Hd; apply in_elt).
  rewrite Hd. now apply sync_loop_stops.
Qed.

(** *** The watchdog callbacks *)

(** X12.  No callback lets an exception reach the watching thread, and the
    callbacks for a creation and for a move leave the filesystem as it is:
    after a move the mirror of the old path is still in place and nothing
    is made for the new path. *)
Theorem callbacks_contained st (h : FileMonitorHandler) (event : watch_event) w :
  (exists w', on_created ALL_VIDEO ALL_SUBTITLE re_findall_ignorecase str_lower
                         st h event w = Return tt w' /\ fs w' = fs w) /\
  (exists w', on_moved ALL_VIDEO ALL_SUBTITLE re_findall_ignorecase str_lower
                       st h event w = Return tt w' /\ fs w' = fs w) /\
  (exists w', on_deleted ALL_VIDEO ALL_SUBTITLE re_findall_ignorecase str_lower
                         st h event w = Return tt w').
Proof.
  unfold on_created, on_moved, on_deleted. split; [|split].
  - destruct (event_handler_returns st Text_create (_watch_path h) (src_path event) w)
      as (w' & Hw).
    exists w'. split; [exact Hw|].
    pose proof (create_event_same_fs st Text_create (_watch_path h) (src_path event) w) as H.
    rewrite Hw in H. apply H. discriminate.
  - destruct (event_handler_returns st Text_move (_watch_path h) (dest_path event) w)
      as (w' & Hw).
    exists w'. split; [exact Hw|].
    pose proof (create_event_same_fs st Text_move (_watch_path h) (dest_path event) w) as H.
    rewrite Hw in H. apply H. discriminate.
  - apply event_handler_returns.
Qed.

(** *** The remote trigger *)

(** X13.  A remote sync over a table in which some tree holds a regular
    file posts the start message and never the completion message: the
    exception of [sync_all] leaves [remote_sync]. *)
Theorem remote_sync_never_completes st (data : list (string * string)) w
        (before after : list (string * option Path)) (item : string * option Path) :
  Dict.get "action" data = Some "softlink_sync" ->
  _dirconf st = (before ++ item :: after)%list ->
  (forall i, In i before -> tree_without_files (fs w) (fst i)) ->
  tree_has_file (fs w) (fst item) ->
  remote_sync ALL_VIDEO ALL_SUBTITLE str_lower st (Some (Some data)) w
  = ([mkPosted (Dict.get "channel" data) Title_sync_started (Dict.get "user" data)],
     Raise (materializer_error st)
           (mkWorld (fs w) (out w ++ sync_starts (before ++ [item])))).
Proof.
  intros Ha Hd Hb Hf. unfold remote_sync.
  destruct data as [|kv data']; [discriminate|].
  rewrite bool_decide_eq_true_2 by exact Ha. cbn [negb].
  assert (Hin : In item (_dirconf st)) by (rewrite Hd; apply in_elt).
  unfold sync_all. rewrite Hd.
  now rewrite (sync_loop_stops st before after item Hin w Hb Hf).
Qed.

(** X14.  A remote sync over trees without regular files posts the start
    message and then the completion message, both to the channel and the
    user of the event; an event for another action does nothing at all. *)
Theorem remote_sync_messages st (data : list (string * string)) w :
  (forall item, In item (_dirconf st) -> tree_without_files (fs w) (fst item)) ->
  data <> [] ->
  remote_sync ALL_VIDEO ALL_SUBTITLE str_lower st (Some (Some data)) w
  = if bool_decide (Dict.get "action" data = Some "softlink_sync")
    then ([mkPosted (Dict.get "channel" data) Title_sync_started (Dict.get "user" data);
           mkPosted (Dict.get "channel" data) Title_sync_finished (Dict.get "user" data)],
          Return tt (mkWorld (fs w) (out w ++ sync_starts (_dirconf st))))
    else ([], Return tt w).
Proof.
  intros Hfiles Hne. unfold remote_sync. destruct data as [|kv data']; [contradiction|].
  destruct (bool_decide _); cbn [negb]; [|reflexivity].
  unfold sync_all. now rewrite (sync_loop_without_files st (_dirconf st) w Hfiles).
Qed.

(** *** Configuration, line by line *)

Lemma split_length (sep : ascii) (s : string) :
  List.length (PyStr.split sep s) = S (PyStr.count sep s).
Proof.
  induction s as [|c s IH]; [reflexivity|]. cbn [PyStr.split PyStr.count].
  destruct (Ascii.eqb c sep); cbn [List.length].
  - now rewrite IH.
  - destruct (PyStr.split sep s); cbn [List.length] in *; [discriminate | exact IH].
Qed.

Lemma split_app (sep : ascii) (a rest : string) :
  PyStr.count sep a = 0%nat ->
  PyStr.split sep (a +:+ String sep rest) = a :: PyStr.split sep rest.
Proof.
  induction a as [|c a IH]; simpl.
  - intros _. now rewrite Ascii.eqb_refl.
  - destruct (Ascii.eqb c sep); [discriminate|]. intros H. now rewrite IH.
Qed.

Lemma count_app (sep : ascii) (a b : string) :
  PyStr.count sep (a +:+ b) = (PyStr.count sep a + PyStr.count sep b)%nat.
Proof.
  induction a as [|c a IH]; simpl; [reflexivity|].
  rewrite IH. lia.
Qed.

Lemma count_sep_cons (sep : ascii) (s : string) :
  PyStr.count sep (String sep s) = S (PyStr.count sep s).
Proof. simpl. now rewrite Ascii.eqb_refl. Qed.

(** X15.  How a line is cut.  Elsewhere than on Windows the line
    [src:dst], both without a colon, gives the source [src] and the
    destination [dst].  On Windows the line [a:b:c:d], the four without a
    colon, gives the source [a:b] and the destination [c:d], so that drive
    letters survive. *)
Theorem split_mon_path_pairs (a b c d : string) :
  PyStr.count colon a = 0%nat -> PyStr.count colon b = 0%nat ->
  PyStr.count colon c = 0%nat -> PyStr.count colon d = 0%nat ->
  split_mon_path false (a +:+ ":" +:+ b) = Ok [a; b] /\
  split_mon_path true (a +:+ ":" +:+ b +:+ ":" +:+ c +:+ ":" +:+ d)
  = Ok [a +:+ ":" +:+ b; c +:+ ":" +:+ d].
Proof.
  intros Ha Hb Hc Hd. unfold split_mon_path. split.
  - change (":" +:+ b) with (String colon b).
    now rewrite split_app, split_no_sep.
  - change (":" +:+ b +:+ ":" +:+ c +:+ ":" +:+ d)
      with (String colon (b +:+ String colon (c +:+ String colon d))).
    repeat (rewrite count_app || rewrite count_sep_cons).
    rewrite Ha, Hb, Hc, Hd. cbn [Nat.add Nat.ltb Nat.leb].
    rewrite !split_app by assumption. rewrite split_no_sep by assumption.
    reflexivity.
Qed.

(** X16.  On Windows a line with exactly two colons cannot be cut: the
    fourth piece is missing, [IndexError] leaves the loop over the lines
    and nothing of the line is stored or scheduled. *)
Theorem windows_two_colons_raise st (line : string) w :
  PyStr.count colon line = 2%nat ->
  configure_line true windows_is_relative_to st line w = Raise IndexError w.
Proof.
  intros Hc. unfold configure_line.
  destruct (String.eqb_spec line "") as [->|_]; [discriminate|].
  unfold split_mon_path. rewrite Hc. cbn [Nat.ltb Nat.leb].
  pose proof (split_length colon line) as Hl. rewrite Hc in Hl.
  destruct (PyStr.split colon line) as [|p0 [|p1 [|p2 [|p3 rest]]]]; try discriminate.
  reflexivity.
Qed.

Lemma configure_line_table st (line : string) (paths : list string) w st' w' :
  line <> "" ->
  split_mon_path is_windows line = Ok paths ->
  configure_line is_windows windows_is_relative_to st line w = Return st' w' ->
  _dirconf st' = Dict.set (line_source paths line) (line_target paths) (_dirconf st) /\
  _enabled st' = _enabled st /\ _onlyonce st' = _onlyonce st /\
  (forall j, In j (scheduled st) -> In j (scheduled st')).
Proof.
  intros Hne Hs. unfold configure_line.
  destruct (String.eqb_spec line ""); [contradiction|].
  rewrite Hs. unfold mbind, M_bind, lift, mret, M_ret. cbn beta iota.
  assert (Hsched : forall (s0 : FileSoftLink) (mp : string) (w0 : world) s1 w1,
             schedule_monitor s0 mp w0 = Return s1 w1 ->
             _dirconf s1 = _dirconf s0 /\ _enabled s1 = _enabled s0 /\
             _onlyonce s1 = _onlyonce s0 /\
             (forall j, In j (scheduled s0) -> In j (scheduled s1))).
  { intros s0 mp w0 s1 w1.
    unfold schedule_monitor, mbind, M_bind, emit, lift, add_job, scheduled.
    destruct (_scheduler s0) as [sch|]; [|discriminate].
    intros [= <- _]. cbn. repeat split; try reflexivity.
    intros j Hj. apply in_or_app. now left. }
  destruct paths as [|p0 [|p1 rest]]; cbn beta iota zeta;
    cbn [line_source line_target fmap option_fmap option_map];
    cbn [_enabled with_dirconf];
    destruct (_enabled st) eqn:En.
  all: try (intros [= <- _]; cbn; rewrite ?En; repeat split; auto).
  - intros H. apply Hsched in H. cbn in H. destruct H as (Hd & He & Ho & Hj).
    repeat split; auto; congruence.
  - intros H. apply Hsched in H. cbn in H. destruct H as (Hd & He & Ho & Hj).
    repeat split; auto; congruence.
  - destruct (target_in_mon_path _ _ _ _) eqn:Er.
    + unfold emit. intros [= <- _]. cbn. rewrite En. repeat split; auto.
    + intros H. apply Hsched in H. cbn in H. destruct H as (Hd & He & Ho & Hj).
      repeat split; auto; congruence.
Qed.

Lemma dict_get_set_ne {V} (k k' : string) (v : V) (d : list (string * V)) :
  k <> k' -> Dict.get k' (Dict.set k v d) = Dict.get k' d.
Proof.
  intros Hne. induction d as [|[k0 v0] d IH]; simpl.
  - destruct (String.eqb_spec k' k); [congruence | reflexivity].
  - destruct (String.eqb_spec k k0) as [->|Hk]; simpl.
    + destruct (String.eqb_spec k' k0); [congruence | reflexivity].
    + destruct (String.eqb_spec k' k0); [reflexivity | exact IH].
Qed.

Lemma configure_line_cases st (line : string) w st' w' :
  configure_line is_windows windows_is_relative_to st line w = Return st' w' ->
  (line = "" /\ st' = st) \/
  (line <> "" /\ exists paths, split_mon_path is_windows line = Ok paths).
Proof.
  unfold configure_line. destruct (String.eqb_spec line "") as [->|Hne].
  - intros [= <- _]. now left.
  - unfold mbind, M_bind, lift.
    destruct (split_mon_path is_windows line) as [paths|e]; [|discriminate].
    intros _. right. split; [exact Hne | now exists paths].
Qed.

Lemma configure_lines_keeps (lines : list string) :
  forall st w st' w',
    configure_lines is_windows windows_is_relative_to st lines w = Return st' w' ->
    _enabled st' = _enabled st /\ _onlyonce st' = _onlyonce st /\
    (forall j, In j (scheduled st) -> In j (scheduled st')) /\
    (forall src, no_line_for is_windows lines src ->
                 Dict.get src (_dirconf st') = Dict.get src (_dirconf st)).
Proof.
  induction lines as [|l lines IH]; intros st w st' w'; simpl.
  - intros [= <- _]. auto.
  - unfold mbind, M_bind.
    destruct (configure_line is_windows windows_is_relative_to st l w)
      as [st1 w1|e w1] eqn:E1; [|discriminate].
    intros H. apply IH in H. destruct H as (He & Ho & Hj & Hg).
    destruct (configure_line_cases _ _ _ _ _ E1) as [[-> ->]|[Hne (paths & Hs)]].
    + repeat split; auto. intros src Hno. apply Hg.
      intros l0 p0 Hin. apply Hno. now right.
    + destruct (configure_line_table st l paths w st1 w1 Hne Hs E1)
        as (Hd1 & He1 & Ho1 & Hj1).
      repeat split; try congruence; auto.
      intros src Hno. rewrite Hg by (intros l0 p0 Hin; apply Hno; now right).
      rewrite Hd1. apply dict_get_set_ne. apply (Hno l paths); auto. now left.
Qed.

Lemma configure_lines_at (l1 : list string) :
  forall (line : string) (l2 : list string) (paths : list string) st w st' w',
    configure_lines is_windows windows_is_relative_to st (l1 ++ line :: l2) w
      = Return st' w' ->
    line <> "" ->
    split_mon_path is_windows line = Ok paths ->
    no_line_for is_windows l2 (line_source paths line) ->
    Dict.get (line_source paths line) (_dirconf st') = Some (line_target paths).
Proof.
  induction l1 as [|x l1 IH]; intros line l2 paths st w st' w'; simpl;
    unfold mbind, M_bind.
  - destruct (configure_line is_windows windows_is_relative_to st line w)
      as [st1 w1|e w1] eqn:E1; [|discriminate].
    intros H Hne Hs Hno.
    destruct (configure_line_table st line paths w st1 w1 Hne Hs E1)
      as (Hd1 & He1 & Ho1 & Hj1).
    apply configure_lines_keeps in H. destruct H as (He & Ho & Hj & Hg).
    rewrite (Hg _ Hno), Hd1. apply dict_get_set_eq.
  - destruct (configure_line is_windows windows_is_relative_to st x w)
      as [st1 w1|e w1] eqn:E1; [|discriminate].
    intros H Hne Hs. exact (IH line l2 paths st1 w1 st' w' H Hne Hs).
Qed.

(** What [init_plugin] returns, in terms of the loop over the lines. *)
Lemma init_plugin_inv cfg st w st' w' :
  init_plugin is_windows windows_is_relative_to cfg st w = Return st' w' ->
  exists st1,
    stop_service (loaded cfg st) = Ok st1 /\
    if _enabled (loaded cfg st) || _onlyonce (loaded cfg st) then
      exists st3 w3,
        configure_lines is_windows windows_is_relative_to
          (with_scheduler st1 (Some (mkScheduler [] false)))
          (PyStr.split newline (_monitor_dirs (loaded cfg st))) w = Return st3 w3 /\
        _dirconf st' = _dirconf st3 /\
        _monitor_dirs st' = _monitor_dirs st3 /\
        _enabled st' = _enabled st3 /\
        _onlyonce st' = false /\
        (forall j, In j (scheduled st3) -> In j (scheduled st')) /\
        (_onlyonce st3 = true -> In Job_sync_all (scheduled st')) /\
        (scheduled st' <> [] ->
         exists s, _scheduler st' = Some s /\ running s = true)
    else st' = st1 /\ w' = w.
Proof.
  unfold init_plugin. fold (loaded cfg st). unfold mbind at 1, M_bind at 1, lift at 1.
  destruct (stop_service (loaded cfg st)) as [st1|e] eqn:Est; [|discriminate].
  intros H. exists st1. split; [reflexivity|].
  apply stop_service_inv in Est. destruct Est as (He1 & Ho1 & Hm1 & _).
  change (mret (M := M) st1 w) with (Return st1 w) in H. cbn beta iota in H.
  rewrite <- He1, <- Ho1, <- Hm1.
  change (_monitor_dirs (with_scheduler st1 (Some (mkScheduler [] false))))
    with (_monitor_dirs st1) in H.
  revert H. destruct (_enabled st1 || _onlyonce st1).
  - unfold mbind, M_bind.
    destruct (configure_lines is_windows windows_is_relative_to _ _ w)
      as [st3 w3|e w3] eqn:E; [|discriminate].
    assert (Hstart : forall st4,
               scheduled (start_scheduler st4) <> [] ->
               exists s, _scheduler (start_scheduler st4) = Some s /\ running s = true).
    { intros st4. unfold start_scheduler, scheduled.
      destruct (_scheduler st4) as [[js r]|] eqn:Es; [|now rewrite Es].
      cbn [jobs]. destruct js as [|j js]; [now rewrite Es|]. cbn. eauto. }
    assert (Hfields : forall st4,
               _dirconf (start_scheduler st4) = _dirconf st4 /\
               _enabled (start_scheduler st4) = _enabled st4 /\
               _onlyonce (start_scheduler st4) = _onlyonce st4).
    { intros st4. unfold start_scheduler.
      destruct (_scheduler st4) as [[js r]|]; [|auto]. cbn [jobs].
      destruct js; auto. }
    destruct (_onlyonce st3) eqn:Eo.
    + unfold emit, lift, add_job, mret, M_ret. cbn [fs out].
      destruct (_scheduler st3) as [sch|] eqn:Es; [|discriminate].
      intros [= <- _]. exists st3, w3. split; [reflexivity|].
      set (st4 := with_onlyonce _ false).
      destruct (start_scheduler_inv st4) as [Hs1 Hs2].
      destruct (Hfields st4) as (Hf1 & Hf2 & Hf3).
      rewrite Hf1, Hs2, Hf2, Hf3.
      split; [reflexivity|]. split; [reflexivity|]. split; [reflexivity|].
      split; [reflexivity|]. split; [|split].
      * intros j Hj. rewrite Hs1. unfold scheduled in *. cbn. rewrite Es in Hj.
        apply in_or_app. now left.
      * intros _. rewrite Hs1. unfold scheduled. cbn. apply in_or_app. right. now left.
      * apply Hstart.
    + unfold mret, M_ret. intros [= <- _]. exists st3, w3. split; [reflexivity|].
      destruct (start_scheduler_inv st3) as [Hs1 Hs2].
      destruct (Hfields st3) as (Hf1 & Hf2 & Hf3).
      rewrite Hf1, Hs2, Hf2, Hf3.
      split; [reflexivity|]. split; [reflexivity|]. split; [reflexivity|].
      split; [exact Eo|]. split; [|split].
      * intros j Hj. now rewrite Hs1.
      * intros Ht. congruence.
      * apply Hstart.
  - unfold mret, M_ret. intros [= <- <-]. auto.
Qed.

(** X18.  The table holds, for a source, the destination of the last line
    that names it: after [init_plugin] has built the table, looking up the
    source of a non-empty line that no later line repeats gives that
    line's destination, [None] when it has none. *)
Theorem last_line_decides cfg st w st' w'
        (l1 l2 : list string) (line : string) (paths : list string) :
  init_plugin is_windows windows_is_relative_to cfg st w = Return st' w' ->
  _enabled (loaded cfg st) || _onlyonce (loaded cfg st) = true ->
  PyStr.split newline (_monitor_dirs st') = (l1 ++ line :: l2)%list ->
  line <> "" ->
  split_mon_path is_windows line = Ok paths ->
  no_line_for is_windows l2 (line_source paths line) ->
  Dict.get (line_source paths line) (_dirconf st') = Some (line_target paths).
Proof.
  intros Hinit Hgate Hlines Hne Hs Hno. apply init_plugin_inv in Hinit.
  destruct Hinit as (st1 & Hstop & Hinit). rewrite Hgate in Hinit.
  destruct Hinit as (st3 & w3 & Hrun & Hd & Hmd & _).
  apply stop_service_inv in Hstop. destruct Hstop as (_ & _ & Hm1 & _).
  pose proof (configure_lines_inv _ _ _ _ _ Hrun) as [Hmd3 _].
  change (_monitor_dirs (with_scheduler st1 (Some (mkScheduler [] false))))
    with (_monitor_dirs st1) in Hmd3.
  rewrite Hmd, Hmd3, Hm1 in Hlines. rewrite Hlines in Hrun.
  rewrite Hd. exact (configure_lines_at l1 line l2 paths _ _ _ _ Hrun Hne Hs Hno).
Qed.

(** X19.  A run-once request is consumed: when [init_plugin] returns for
    a configuration with the run-once switch on, the switch is off again,
    one full resync is among the scheduled jobs and the scheduler has been
    started. *)
Theorem run_once_consumed cfg st w st' w' :
  init_plugin is_windows windows_is_relative_to cfg st w = Return st' w' ->
  _onlyonce (loaded cfg st) = true ->
  _onlyonce st' = false /\
  In Job_sync_all (scheduled st') /\
  exists s, _scheduler st' = Some s /\ running s = true.
Proof.
  intros Hinit Ho. apply init_plugin_inv in Hinit.
  destruct Hinit as (st1 & Hstop & Hinit). rewrite Ho, orb_true_r in Hinit.
  destruct Hinit as (st3 & w3 & Hrun & _ & _ & _ & Hoff & _ & Hsync & Hstart).
  apply stop_service_inv in Hstop. destruct Hstop as (_ & Ho1 & _).
  pose proof (configure_lines_keeps _ _ _ _ _ Hrun) as (_ & Ho3 & _).
  assert (Hin : In Job_sync_all (scheduled st')).
  { apply Hsync. rewrite Ho3. cbn. congruence. }
  split; [exact Hoff|]. split; [exact Hin|].
  apply Hstart. intros Hnil. now rewrite Hnil in Hin.
Qed.

(** X20.  With neither monitoring nor run-once switched on,
    [init_plugin] is [stop_service] and nothing more: it raises what
    [stop_service] raises, and when [stop_service] returns it leaves an
    idle plugin: the table is empty whatever the mapping text says,
    nothing is monitored or observed, nothing is logged, and a resync of
    that plugin walks nothing. *)
Theorem disabled_plugin_idle cfg st w :
  _enabled (loaded cfg st) = false ->
  _onlyonce (loaded cfg st) = false ->
  match stop_service (loaded cfg st) with
  | Ok st1 =>
      init_plugin is_windows windows_is_relative_to cfg st w = Return st1 w /\
      _dirconf st1 = [] /\
      monitored st1 = [] /\
      _observer st1 = [] /\
      resync st1 w = Return tt w
  | Err e =>
      init_plugin is_windows windows_is_relative_to cfg st w = Raise e w
  end.
Proof.
  intros He Ho. unfold init_plugin. fold (loaded cfg st).
  unfold mbind at 1, M_bind at 1, lift at 1.
  destruct (stop_service (loaded cfg st)) as [st1|e] eqn:Est; [|reflexivity].
  apply stop_service_inv in Est. destruct Est as (He1 & Ho1 & _ & Hd1 & Hobs & Hidle).
  change (mret (M := M) st1 w) with (Return st1 w). cbn beta iota.
  rewrite He1, Ho1, He, Ho. cbn [orb].
  assert (Hd : _dirconf st1 = []).
  { rewrite Hd1. unfold loaded. now destruct cfg. }
  split; [reflexivity|]. split; [exact Hd|]. split; [exact Hidle|].
  split; [exact Hobs|]. unfold sync_all. rewrite Hd. reflexivity.
Qed.

(** X28.  A plugin object whose scheduler is in place but not running
    cannot be configured again: [stop_service] raises at [shutdown()],
    before any line is read and whatever the new configuration says.
    [stop_service] itself leaves the scheduler in that state, and so does
    an [init_plugin] that found nothing to schedule. *)
Theorem stopped_scheduler_blocks cfg st w (s : scheduler) :
  _scheduler st = Some s ->
  running s = false ->
  init_plugin is_windows windows_is_relative_to cfg st w
  = Raise SchedulerNotRunningError w.
Proof.
  intros Hs Hr. unfold init_plugin. fold (loaded cfg st).
  unfold mbind at 1, M_bind at 1, lift at 1.
  assert (Hl : _scheduler (loaded cfg st) = Some s).
  { unfold loaded. now destruct cfg. }
  unfold stop_service, shutdown. rewrite Hl, Hr. reflexivity.
Qed.

(** *** What the materializer and the engine never do *)

(** X24.  The destination-membership guard never answers true: it raises
    [TypeError] exactly when some mapping has a destination and answers
    false exactly when none has. *)
Theorem guard_never_true st (path_str : string) :
  dest_guard st path_str <> Ok true /\
  (dest_guard st path_str = Err TypeError <-> has_destination st = true) /\
  (dest_guard st path_str = Ok false <-> has_destination st = false).
Proof.
  rewrite dest_guard_spec. destruct (has_destination st); repeat split; congruence.
Qed.

(** X25.  The engine creates nothing: a path where nothing is stored
    stays that way through any sequence of events, full resyncs and
    changes by other processes that do not themselves create it. *)
Theorem engine_never_creates st (p : Path) (ops : list op) (w : world) :
  Forall (leaves_absent p) ops ->
  absent w p ->
  absent (engine_run st ops w) p.
Proof. apply run_keeps_absent. Qed.

Lemma getsize_regular (m : gmap Path node) (p : Path) (d : list byte) :
  m !! FS.entry p = Some (File d) -> parts p <> [] ->
  FS.getsize m p = Ok (Z.of_nat (List.length d)).
Proof.
  intros Hm Hp.
  assert (Hl : FS.lstat m p = Some (File d)).
  { unfold FS.lstat. destruct (parts p); [congruence | exact Hm]. }
  unfold FS.getsize, FS.stat. rewrite follow_unfold, Hl, Hl. reflexivity.
Qed.

Lemma getsize_str_regular (m : gmap Path node) (s : string) (d : list byte) :
  s <> "" -> FS.as_directory s = false ->
  m !! FS.entry (PurePath.of_str s) = Some (File d) ->
  parts (PurePath.of_str s) <> [] ->
  FS.getsize_str m s = Ok (Z.of_nat (List.length d)).
Proof.
  intros Hs Hd Hm Hp. unfold FS.getsize_str.
  destruct (String.eqb_spec s ""); [contradiction|].
  rewrite Hd. cbn [andb]. now apply getsize_regular.
Qed.

(** X27.  A deletion event that passes the filters ends in one of two
    ways: the deleted path no longer resolves ([exists()] is false) under
    any destination root of the table, where a link left dangling is not
    removed; or the failure of the propagation has been reported on the
    message channel. *)
Theorem delete_event_outcome st mon_path event_path relpath w :
  PurePath.relative_to (PurePath.of_str event_path) (PurePath.of_str mon_path)
    = Ok relpath ->
  within_size st (fs w) event_path ->
  (_exclude_keywords st = "" \/
   re_findall_ignorecase (_exclude_keywords st) event_path = Ok false) ->
  let w' := world_of (handle_event st Text_delete mon_path event_path w) in
  (forall target_dir,
      In (Some target_dir) (Dict.values (_dirconf st)) ->
      FS.exists_ (fs w') (PurePath.joinpath target_dir relpath) = false) \/
  (exists e, In (System_message (Msg_event_failed event_path Text_delete e)) (out w')).
Proof.
  intros Hrel Hsize Hexc. cbn zeta. rewrite event_handler_of_try.
  unfold event_try, mbind, M_bind, emit, read. cbn [fs out].
  set (w1 := mkWorld (fs w) _).
  rewrite (bool_decide_eq_true_2 (Text_delete = Text_delete) eq_refl).
  rewrite andb_false_r.
  rewrite (oversized_false st event_path w1 Hsize).
  assert (He : excluded re_findall_ignorecase st event_path w1 = Return false w1).
  { unfold excluded. destruct Hexc as [->|H]; [reflexivity|].
    destruct (String.eqb _ _); [reflexivity | now rewrite H]. }
  rewrite He.
  destruct (__handle_delete st event_path mon_path w1) as [[] w2|e w2] eqn:Ed;
    cbn [world_of fs out].
  - left. intros target_dir Hin.
    unfold __handle_delete, mbind, M_bind in Ed. rewrite Hrel in Ed. cbn [lift] in Ed.
    unfold mret, M_ret in Ed. apply delete_loop_returns in Ed. now apply Ed.
  - right. exists e. unfold failure_report. apply in_or_app. left.
    apply in_or_app. right. right. now left.
Qed.

(** The two conditions on a tree, decided by running the walk. *)
Lemma tree_without_files_check (m : gmap Path node) (mon_path : string) :
  forallb (fun p => negb (FS.is_file m p)) (FS.rglob m (PurePath.of_str mon_path)) = true ->
  tree_without_files m mon_path.
Proof.
  intros H path Hin. rewrite forallb_forall in H. specialize (H path Hin).
  now destruct (FS.is_file m path).
Qed.

Lemma tree_has_file_check (m : gmap Path node) (mon_path : string) :
  existsb (FS.is_file m) (FS.rglob m (PurePath.of_str mon_path)) = true ->
  tree_has_file m mon_path.
Proof. intros H. apply existsb_exists in H. exact H. Qed.

End Properties.

(** ** Instances on the sample trees *)

Lemma exclude_pattern_never_materialized_witness :
  absent
    (run Sample.video Sample.subtitle Sample.search PyStr.lower_ascii
         (Sample.plugin false 0 ".TMP" [("/src", Some (Sample.P "/dst"))])
         [Op_event Text_create "/src" "/src/a/movie.mkv.tmp";
          Op_sync_all;
          Op_event Text_move "/src" "/src/a/movie.mkv.tmp"]
         (mkWorld Sample.tree_tmp []))
    (Sample.P "/dst/a/movie.mkv.tmp").
Proof.
  refine (proj2 (exclude_pattern_never_materialized
                   Sample.video Sample.subtitle Sample.search PyStr.lower_ascii
                   (Sample.plugin false 0 ".TMP" [("/src", Some (Sample.P "/dst"))])
                   "/src/a/movie.mkv.tmp" "/src" (Sample.P "/dst")
                   (mkPath Relative ["a"; "movie.mkv.tmp"]) _ _ _ _) _ _ _ _).
  - discriminate.
  - reflexivity.
  - left. reflexivity.
  - reflexivity.
  - repeat constructor.
  - vm_compute. reflexivity.
Defined.

(** C2 at [/src/a/movie.mkv], three bytes long, under a threshold of one
    megabyte: the created-event passes the size test, the materializer is
    handed the path as a [str] and raises [AttributeError], which is
    reported; nothing appears at [/dst/a/movie.mkv]. *)
Theorem small_file_event_not_materialized :
  let st := Sample.plugin false 1 "" [("/src", Some (Sample.P "/dst"))] in
  let w' := world_of (event_handler Sample.video Sample.subtitle Sample.search
                        PyStr.lower_ascii st Text_create "/src" "/src/a/movie.mkv"
                        (mkWorld Sample.tree [])) in
  FS.getsize Sample.tree (Sample.P "/src/a/movie.mkv") = Ok 3 /\
  fs w' !! Sample.P "/dst/a/movie.mkv" = None /\
  out w' = [Lock_acquire;
            Log_info (Msg_event "/src/a/movie.mkv" Text_create);
            Log_error (Msg_event_failed "/src/a/movie.mkv" Text_create AttributeError);
            System_message (Msg_event_failed "/src/a/movie.mkv" Text_create AttributeError);
            Lock_release].
Proof. vm_compute. repeat split; reflexivity. Qed.

(** C3 on two mappings with one file each: the resync raises at the file
    of the first tree; the second tree is never walked and nothing is
    reported. *)
Theorem resync_aborts_at_first_file :
  sync_all Sample.video Sample.subtitle PyStr.lower_ascii
           (Sample.plugin false 0 ""
              [("/a", Some (Sample.P "/x")); ("/b", Some (Sample.P "/y"))])
           (mkWorld Sample.two_trees [])
  = Raise TypeError (mkWorld Sample.two_trees [Log_info (Msg_sync_start "/a")]).
Proof. vm_compute. reflexivity. Qed.

(** C4 after [/src/a/movie.mkv] was deleted: its link at
    [/dst/a/movie.mkv] dangles, [exists()] is false for it, and the
    propagator returns with the link still in place. *)
Theorem dangling_link_not_removed :
  let st := Sample.plugin false 0 "" [("/src", Some (Sample.P "/dst"))] in
  Sample.tree_after_delete !! Sample.P "/dst/a/movie.mkv"
    = Some (Symlink (Sample.P "/src/a/movie.mkv")) /\
  Sample.tree_after_delete !! Sample.P "/src/a/movie.mkv" = None /\
  __handle_delete st "/src/a/movie.mkv" "/src" (mkWorld Sample.tree_after_delete [])
    = Return tt (mkWorld Sample.tree_after_delete []).
Proof. vm_compute. repeat split; reflexivity. Qed.

(** C5 with the mapping [/src] to [/dst]: the guard raises [TypeError] for
    a path inside the destination and for a path outside it, where the
    design document's test answers true and false. *)
Theorem membership_guard_raises :
  let st := Sample.plugin false 0 "" [("/src", Some (Sample.P "/dst"))] in
  dest_guard st "/dst/a/movie.mkv" = Err TypeError /\
  isInsideAnyDestination st "/dst/a/movie.mkv" = true /\
  dest_guard st "/src/a/movie.mkv" = Err TypeError /\
  isInsideAnyDestination st "/src/a/movie.mkv" = false.
Proof. vm_compute. repeat split; reflexivity. Qed.

(** C9 with the mapping [/src] to [/dst]: materializing
    [/src/a/movie.mkv] raises [TypeError] the first time and the second
    time, and [/dst/a/movie.mkv] holds nothing afterwards. *)
Theorem materialize_twice_raises_twice :
  let st := Sample.plugin false 0 "" [("/src", Some (Sample.P "/dst"))] in
  let once := __handle_file Sample.video Sample.subtitle PyStr.lower_ascii st
                (Arg_path (Sample.P "/src/a/movie.mkv")) "/src" (Some (Sample.P "/dst"))
                (mkWorld Sample.tree []) in
  let twice := __handle_file Sample.video Sample.subtitle PyStr.lower_ascii st
                 (Arg_path (Sample.P "/src/a/movie.mkv")) "/src" (Some (Sample.P "/dst"))
                 (world_of once) in
  once = Raise TypeError (mkWorld Sample.tree []) /\
  twice = Raise TypeError (mkWorld Sample.tree []) /\
  fs (world_of twice) !! Sample.P "/dst/a/movie.mkv" = None.
Proof. vm_compute. repeat split; reflexivity. Qed.

(** C8 with the mapping [/src] to [/dst].  Run on its own, with
    [/dst/a] in place, the last block of the materializer decides as the
    design document says: a link with copy mode off, a link for the video
    and a copy of the bytes for the picture with copy mode on.  No call of
    the materializer gets there: for the video and for the picture, with
    copy mode off and on, the call raises [TypeError] at the
    destination-membership test and changes nothing, and the creation
    event for either file is reported as failed and leaves nothing at its
    place under [/dst]. *)
Theorem materializer_never_links_or_copies :
  let movie := Sample.P "/src/a/movie.mkv" in
  let poster := Sample.P "/src/a/poster.jpg" in
  let st copy := Sample.plugin copy 0 "" [("/src", Some (Sample.P "/dst"))] in
  let ready := mkWorld (<[Sample.P "/dst/a" := Dir]> Sample.tree) [] in
  let block copy path target :=
    link_or_copy Sample.video Sample.subtitle PyStr.lower_ascii (st copy)
                 path (Sample.P target) ready in
  let call copy path :=
    __handle_file Sample.video Sample.subtitle PyStr.lower_ascii (st copy)
                  (Arg_path path) "/src" (Some (Sample.P "/dst"))
                  (mkWorld Sample.tree []) in
  let event copy event_path :=
    event_handler Sample.video Sample.subtitle Sample.search PyStr.lower_ascii
                  (st copy) Text_create "/src" event_path (mkWorld Sample.tree []) in
  (fs (world_of (block false poster "/dst/a/poster.jpg")) !! Sample.P "/dst/a/poster.jpg"
     = Some (Symlink poster) /\
   fs (world_of (block true movie "/dst/a/movie.mkv")) !! Sample.P "/dst/a/movie.mkv"
     = Some (Symlink movie) /\
   fs (world_of (block true poster "/dst/a/poster.jpg")) !! Sample.P "/dst/a/poster.jpg"
     = Some (File [x01; x02; x03])) /\
  (call false movie = Raise TypeError (mkWorld Sample.tree []) /\
   call false poster = Raise TypeError (mkWorld Sample.tree []) /\
   call true movie = Raise TypeError (mkWorld Sample.tree []) /\
   call true poster = Raise TypeError (mkWorld Sample.tree [])) /\
  (fs (world_of (event false "/src/a/movie.mkv")) !! Sample.P "/dst/a/movie.mkv" = None /\
   fs (world_of (event true "/src/a/poster.jpg")) !! Sample.P "/dst/a/poster.jpg" = None /\
   out (world_of (event true "/src/a/poster.jpg"))
   = [Lock_acquire;
      Log_info (Msg_event "/src/a/poster.jpg" Text_create);
      Log_error (Msg_event_failed "/src/a/poster.jpg" Text_create AttributeError);
      System_message (Msg_event_failed "/src/a/poster.jpg" Text_create AttributeError);
      Lock_release]).
Proof.
  cbv zeta. split; [|split].
  - vm_compute. repeat split; reflexivity.
  - repeat split; apply handle_file_type_error; vm_compute; reflexivity.
  - vm_compute. repeat split; reflexivity.
Qed.

(** C6, as the claim has it, fails: the table built from the line
    [/src:/src/out] holds that mapping. *)
Lemma table_holds_nested_mapping : ~ table_never_nested false.
Proof.
  intros H.
  set (r := init_plugin false Sample.windows_test (Some (Sample.settings "/src:/src/out"))
                        Sample.fresh (mkWorld ∅ [])).
  specialize (H Sample.windows_test
                (Some (Sample.settings "/src:/src/out")) Sample.fresh (mkWorld ∅ [])
                (match r with Return s _ => s | Raise _ _ => Sample.fresh end)
                (world_of r) "/src" (Sample.P "/src/out")).
  assert (Hnested : PurePath.is_relative_to (Sample.P "/src/out") (PurePath.of_str "/src")
                    = false).
  { apply H; vm_compute; [reflexivity | now left]. }
  vm_compute in Hnested. discriminate.
Qed.

(** Nor is the source of a nested mapping left unwatched: from the lines
    [/src:/dst] and [/src:/src/out] the first opens the session of [/src]
    and the second decides the table, so [/src] is watched and mirrored
    into [/src/out]. *)
Lemma nested_mapping_watched : ~ sessions_never_nested false.
Proof.
  intros H.
  set (cfg := Some (Sample.settings (Sample.lines ["/src:/dst"; "/src:/src/out"]))).
  set (r := init_plugin false Sample.windows_test cfg Sample.fresh (mkWorld ∅ [])).
  specialize (H Sample.windows_test cfg Sample.fresh (mkWorld ∅ [])
                (match r with Return s _ => s | Raise _ _ => Sample.fresh end)
                (world_of r) "/src" (Sample.P "/src/out")).
  assert (Hnested : PurePath.is_relative_to (Sample.P "/src/out") (PurePath.of_str "/src")
                    = false).
  { apply H; vm_compute; [reflexivity | now left | reflexivity]. }
  vm_compute in Hnested. discriminate.
Qed.

Lemma watch_sessions_of_lines_witness :
  let text := Sample.lines ["/src:/dst"; "/src:/src/out"; ""; "/a:/a"; "/c"; "//b:/b/x"] in
  let r := init_plugin false Sample.windows_test (Some (Sample.settings text))
                       Sample.fresh (mkWorld ∅ []) in
  let st' := match r with Return s _ => s | Raise _ _ => Sample.fresh end in
  monitored st' = ["/src"; "/c"; "//b"] /\
  Dict.get "/src" (_dirconf st') = Some (Some (Sample.P "/src/out")).
Proof.
  intros text r st'. split; [|vm_compute; reflexivity].
  transitivity (if _enabled st'
                then accepted_sources false Sample.windows_test
                       (PyStr.split newline (_monitor_dirs st'))
                else []); [|vm_compute; reflexivity].
  refine (watch_sessions_of_lines false Sample.windows_test
            (Some (Sample.settings text)) Sample.fresh (mkWorld ∅ [])
            st' (world_of r) _).
  vm_compute. reflexivity.
Defined.

Lemma no_destination_raises_witness :
  let st := Sample.plugin false 0 "" [("/src", None); ("/a", Some (Sample.P "/b"))] in
  let st0 := with_scheduler Sample.fresh (Some (mkScheduler [] false)) in
  (exists st' w',
      configure_line false Sample.windows_test st0 "/src" (mkWorld ∅ []) = Return st' w' /\
      Dict.get "/src" (_dirconf st') = Some None) /\
  __handle_file Sample.video Sample.subtitle PyStr.lower_ascii st
    (Arg_path (Sample.P "/src/a/movie.mkv")) "/src"
    (mjoin (Dict.get "/src" (_dirconf st))) (mkWorld Sample.tree [])
  = Raise (if has_destination st then TypeError else AttributeError)
          (mkWorld Sample.tree []) /\
  (forall s,
      __handle_file Sample.video Sample.subtitle PyStr.lower_ascii st
        (Arg_str s) "/src" (mjoin (Dict.get "/src" (_dirconf st))) (mkWorld Sample.tree [])
      = Raise AttributeError (mkWorld Sample.tree [])).
Proof.
  intros st st0.
  refine (no_destination_raises false Sample.video Sample.subtitle PyStr.lower_ascii
            Sample.windows_test st0 (mkWorld ∅ []) st "/src" (Sample.P "/src/a/movie.mkv")
            (mkWorld Sample.tree []) _ _ _ _ _ _).
  - discriminate.
  - reflexivity.
  - eexists. reflexivity.
  - reflexivity.
  - vm_compute. reflexivity.
  - vm_compute. reflexivity.
Defined.

(** ** Instances of the further properties *)

Lemma transient_event_dropped_witness :
  event_handler Sample.video Sample.subtitle Sample.search PyStr.lower_ascii
    (Sample.plugin false 0 "" [("/src", Some (Sample.P "/dst"))])
    Text_create "/src" "/src/a/ghost.part" (mkWorld Sample.tree [])
  = Return tt (mkWorld Sample.tree
                 ([] ++ event_trace Text_create "/src/a/ghost.part" [])).
Proof.
  refine (transient_event_dropped Sample.video Sample.subtitle Sample.search
            PyStr.lower_ascii
            (Sample.plugin false 0 "" [("/src", Some (Sample.P "/dst"))])
            Text_create "/src" "/src/a/ghost.part" (mkWorld Sample.tree []) _ _).
  - vm_compute. reflexivity.
  - discriminate.
Defined.

Lemma oversized_event_dropped_witness :
  event_handler Sample.video Sample.subtitle Sample.search PyStr.lower_ascii
    (Sample.plugin false 1 "" [("/src", Some (Sample.P "/dst"))])
    Text_create "/src" "/src/a/huge.bin" (mkWorld Sample.tree_huge [])
  = Return tt (mkWorld Sample.tree_huge
                 ([] ++ event_trace Text_create "/src/a/huge.bin"
                                    [Log_info (Msg_oversize "/src/a/huge.bin")])).
Proof.
  refine (oversized_event_dropped Sample.video Sample.subtitle Sample.search
            PyStr.lower_ascii
            (Sample.plugin false 1 "" [("/src", Some (Sample.P "/dst"))])
            Text_create "/src" "/src/a/huge.bin" (mkWorld Sample.tree_huge [])
            (Z.of_nat (List.length Sample.huge)) _ _ _).
  - reflexivity.
  - apply getsize_str_regular;
      [discriminate | reflexivity | apply lookup_insert_eq | discriminate].
  - unfold Sample.huge. rewrite repeat_length. cbn [_size Sample.plugin]. lia.
Defined.

Lemma size_test_failure_reported_witness :
  event_handler Sample.video Sample.subtitle Sample.search PyStr.lower_ascii
    (Sample.plugin false 1 "" [("/src", Some (Sample.P "/dst"))])
    Text_create "/src" "/src/a/movie.mkv/" (mkWorld Sample.tree [])
  = Return tt (mkWorld Sample.tree
                 ([] ++ event_trace Text_create "/src/a/movie.mkv/"
                          (failure_report Text_create "/src/a/movie.mkv/"
                                          NotADirectoryError))).
Proof.
  refine (size_test_failure_reported Sample.video Sample.subtitle Sample.search
            PyStr.lower_ascii
            (Sample.plugin false 1 "" [("/src", Some (Sample.P "/dst"))])
            Text_create "/src" "/src/a/movie.mkv/" (mkWorld Sample.tree [])
            NotADirectoryError _ _ _).
  - reflexivity.
  - vm_compute. reflexivity.
  - vm_compute. reflexivity.
Defined.

Lemma passed_event_fails_witness :
  event_handler Sample.video Sample.subtitle Sample.search PyStr.lower_ascii
    (Sample.plugin false 0 "" [("/src", Some (Sample.P "/dst"))])
    Text_move "/src" "/src/a/movie.mkv" (mkWorld Sample.tree [])
  = Return tt (mkWorld Sample.tree
                 ([] ++ event_trace Text_move "/src/a/movie.mkv"
                          (failure_report Text_move "/src/a/movie.mkv" AttributeError))).
Proof.
  refine (passed_event_fails Sample.video Sample.subtitle Sample.search
            PyStr.lower_ascii
            (Sample.plugin false 0 "" [("/src", Some (Sample.P "/dst"))])
            Text_move "/src" "/src/a/movie.mkv" (mkWorld Sample.tree []) _ _ _ _).
  - discriminate.
  - vm_compute. reflexivity.
  - left. reflexivity.
  - left. reflexivity.
Defined.

Lemma invalid_pattern_reported_witness :
  event_handler Sample.video Sample.subtitle Sample.strict_search PyStr.lower_ascii
    (Sample.plugin false 0 "(" [("/src", Some (Sample.P "/dst"))])
    Text_delete "/src" "/src/a/gone.mkv" (mkWorld Sample.tree [])
  = Return tt (mkWorld Sample.tree
                 ([] ++ event_trace Text_delete "/src/a/gone.mkv"
                          (failure_report Text_delete "/src/a/gone.mkv" ReError))).
Proof.
  refine (invalid_pattern_reported Sample.video Sample.subtitle Sample.strict_search
            PyStr.lower_ascii
            (Sample.plugin false 0 "(" [("/src", Some (Sample.P "/dst"))])
            Text_delete "/src" "/src/a/gone.mkv" (mkWorld Sample.tree []) ReError
            _ _ _ _).
  - discriminate.
  - reflexivity.
  - right. reflexivity.
  - left. reflexivity.
Defined.

Lemma handle_delete_clears_targets_witness :
  let st := Sample.plugin true 0 "" [("/src", Some (Sample.P "/dst"))] in
  FS.exists_
    (fs (world_of (__handle_delete st "/src/a/poster.jpg" "/src"
                                   (mkWorld Sample.tree_with_copy []))))
    (PurePath.joinpath (Sample.P "/dst") (mkPath Relative ["a"; "poster.jpg"]))
  = false.
Proof.
  intros st.
  refine (handle_delete_clears_targets st "/src/a/poster.jpg" "/src"
            (mkPath Relative ["a"; "poster.jpg"]) (mkWorld Sample.tree_with_copy [])
            (world_of (__handle_delete st "/src/a/poster.jpg" "/src"
                                       (mkWorld Sample.tree_with_copy [])))
            _ _ (Sample.P "/dst") _).
  - vm_compute. reflexivity.
  - vm_compute. reflexivity.
  - left. reflexivity.
Defined.

Lemma handle_delete_idempotent_witness :
  let st := Sample.plugin true 0 "" [("/src", Some (Sample.P "/dst"))] in
  let w' := world_of (__handle_delete st "/src/a/poster.jpg" "/src"
                                      (mkWorld Sample.tree_with_copy [])) in
  __handle_delete st "/src/a/poster.jpg" "/src" w' = Return tt w'.
Proof.
  intros st w'.
  refine (handle_delete_idempotent st "/src/a/poster.jpg" "/src"
            (mkWorld Sample.tree_with_copy []) w' _).
  vm_compute. reflexivity.
Defined.


Lemma resync_of_empty_trees_witness :
  sync_all Sample.video Sample.subtitle PyStr.lower_ascii
           (Sample.plugin false 0 "" [("/src", Some (Sample.P "/dst"))])
           (mkWorld Sample.bare_tree [])
  = Return tt (mkWorld Sample.bare_tree
                 ([] ++ sync_starts [("/src", Some (Sample.P "/dst"))])).
Proof.
  refine (resync_of_empty_trees Sample.video Sample.subtitle PyStr.lower_ascii
            (Sample.plugin false 0 "" [("/src", Some (Sample.P "/dst"))])
            (mkWorld Sample.bare_tree []) _).
  intros item [<-|[]]. apply tree_without_files_check. vm_compute. reflexivity.
Defined.

Lemma resync_stops_at_first_file_witness :
  let table := [("/y", None); ("/a", Some (Sample.P "/x")); ("/b", Some (Sample.P "/y"))] in
  sync_all Sample.video Sample.subtitle PyStr.lower_ascii
           (Sample.plugin false 0 "" table) (mkWorld Sample.two_trees [])
  = Raise (materializer_error (Sample.plugin false 0 "" table))
          (mkWorld Sample.two_trees
             ([] ++ sync_starts ([("/y", None)] ++ [("/a", Some (Sample.P "/x"))]))).
Proof.
  intros table.
  refine (resync_stops_at_first_file Sample.video Sample.subtitle PyStr.lower_ascii
            (Sample.plugin false 0 "" table) (mkWorld Sample.two_trees [])
            [("/y", None)] [("/b", Some (Sample.P "/y"))]
            ("/a", Some (Sample.P "/x")) _ _ _).
  - reflexivity.
  - intros i [<-|[]]. apply tree_without_files_check. vm_compute. reflexivity.
  - apply tree_has_file_check. vm_compute. reflexivity.
Defined.

Lemma remote_sync_never_completes_witness :
  let table := [("/a", Some (Sample.P "/x")); ("/b", Some (Sample.P "/y"))] in
  remote_sync Sample.video Sample.subtitle PyStr.lower_ascii
              (Sample.plugin false 0 "" table) (Some (Some Sample.sync_command))
              (mkWorld Sample.two_trees [])
  = ([mkPosted (Dict.get "channel" Sample.sync_command) Title_sync_started
               (Dict.get "user" Sample.sync_command)],
     Raise (materializer_error (Sample.plugin false 0 "" table))
           (mkWorld Sample.two_trees
              ([] ++ sync_starts ([] ++ [("/a", Some (Sample.P "/x"))])))).
Proof.
  intros table.
  refine (remote_sync_never_completes Sample.video Sample.subtitle PyStr.lower_ascii
            (Sample.plugin false 0 "" table) Sample.sync_command
            (mkWorld Sample.two_trees [])
            [] [("/b", Some (Sample.P "/y"))] ("/a", Some (Sample.P "/x")) _ _ _ _).
  - reflexivity.
  - reflexivity.
  - intros i [].
  - apply tree_has_file_check. vm_compute. reflexivity.
Defined.

Lemma remote_sync_messages_witness :
  let st := Sample.plugin false 0 "" [("/src", Some (Sample.P "/dst"))] in
  remote_sync Sample.video Sample.subtitle PyStr.lower_ascii st
              (Some (Some Sample.sync_command)) (mkWorld Sample.bare_tree [])
  = if bool_decide (Dict.get "action" Sample.sync_command = Some "softlink_sync")
    then ([mkPosted (Dict.get "channel" Sample.sync_command) Title_sync_started
                    (Dict.get "user" Sample.sync_command);
           mkPosted (Dict.get "channel" Sample.sync_command) Title_sync_finished
                    (Dict.get "user" Sample.sync_command)],
          Return tt (mkWorld Sample.bare_tree ([] ++ sync_starts (_dirconf st))))
    else ([], Return tt (mkWorld Sample.bare_tree [])).
Proof.
  intros st.
  refine (remote_sync_messages Sample.video Sample.subtitle PyStr.lower_ascii st
            Sample.sync_command (mkWorld Sample.bare_tree []) _ _).
  - intros item [<-|[]]. apply tree_without_files_check. vm_compute. reflexivity.
  - discriminate.
Defined.

Lemma split_mon_path_pairs_witness :
  split_mon_path false ("/src" +:+ ":" +:+ "/dst") = Ok ["/src"; "/dst"] /\
  split_mon_path true ("/src" +:+ ":" +:+ "/dst" +:+ ":" +:+ "D" +:+ ":" +:+ "/media")
  = Ok ["/src" +:+ ":" +:+ "/dst"; "D" +:+ ":" +:+ "/media"].
Proof.
  refine (split_mon_path_pairs "/src" "/dst" "D" "/media" _ _ _ _); reflexivity.
Defined.

Lemma windows_two_colons_raise_witness :
  configure_line true Sample.windows_test Sample.fresh "C:/src:dst" (mkWorld ∅ [])
  = Raise IndexError (mkWorld ∅ []).
Proof.
  refine (windows_two_colons_raise Sample.windows_test Sample.fresh "C:/src:dst" (mkWorld ∅ []) _).
  reflexivity.
Defined.

Lemma last_line_decides_witness :
  let r := init_plugin false Sample.windows_test
             (Some (Sample.settings (Sample.lines ["/src:/old"; "/src:/dst"])))
             Sample.fresh (mkWorld ∅ []) in
  Dict.get (line_source ["/src"; "/dst"] "/src:/dst")
           (_dirconf (match r with Return s _ => s | Raise _ _ => Sample.fresh end))
  = Some (line_target ["/src"; "/dst"]).
Proof.
  intros r.
  refine (last_line_decides false Sample.windows_test
            (Some (Sample.settings (Sample.lines ["/src:/old"; "/src:/dst"])))
            Sample.fresh (mkWorld ∅ [])
            (match r with Return s _ => s | Raise _ _ => Sample.fresh end)
            (world_of r) ["/src:/old"] [] "/src:/dst" ["/src"; "/dst"] _ _ _ _ _ _).
  - vm_compute. reflexivity.
  - vm_compute. reflexivity.
  - vm_compute. reflexivity.
  - discriminate.
  - reflexivity.
  - intros l paths [].
Defined.

Lemma run_once_consumed_witness :
  let r := init_plugin false Sample.windows_test
                       (Some (Sample.run_once_settings "/src:/dst"))
                       Sample.fresh (mkWorld ∅ []) in
  let st' := match r with Return s _ => s | Raise _ _ => Sample.fresh end in
  _onlyonce st' = false /\
  In Job_sync_all (scheduled st') /\
  exists s, _scheduler st' = Some s /\ running s = true.
Proof.
  intros r st'.
  refine (run_once_consumed false Sample.windows_test
            (Some (Sample.run_once_settings "/src:/dst"))
            Sample.fresh (mkWorld ∅ []) st' (world_of r) _ _).
  - vm_compute. reflexivity.
  - vm_compute. reflexivity.
Defined.

Lemma disabled_plugin_idle_witness :
  let cfg := Some (Sample.disabled_settings "/src:/dst") in
  let st1 := loaded cfg Sample.fresh in
  init_plugin false Sample.windows_test cfg Sample.fresh (mkWorld Sample.tree [])
  = Return st1 (mkWorld Sample.tree []) /\
  _dirconf st1 = [] /\
  monitored st1 = [] /\
  _observer st1 = [] /\
  sync_all Sample.video Sample.subtitle PyStr.lower_ascii st1 (mkWorld Sample.tree [])
  = Return tt (mkWorld Sample.tree []).
Proof.
  intros cfg st1.
  refine (disabled_plugin_idle false Sample.video Sample.subtitle PyStr.lower_ascii
            Sample.windows_test cfg Sample.fresh (mkWorld Sample.tree []) _ _);
    reflexivity.
Defined.

Lemma stopped_scheduler_blocks_witness :
  let started := init_plugin false Sample.windows_test
                   (Some (Sample.settings "/src:/dst")) Sample.fresh (mkWorld ∅ []) in
  let st1 := match started with Return s _ => s | Raise _ _ => Sample.fresh end in
  let disabled := init_plugin false Sample.windows_test
                    (Some (Sample.disabled_settings "/src:/dst")) st1 (mkWorld ∅ []) in
  let st2 := match disabled with Return s _ => s | Raise _ _ => Sample.fresh end in
  monitored st1 = ["/src"] /\
  _scheduler st2 = Some (mkScheduler [] false) /\
  init_plugin false Sample.windows_test (Some (Sample.settings "/src:/dst")) st2
              (mkWorld ∅ [])
  = Raise SchedulerNotRunningError (mkWorld ∅ []).
Proof.
  intros started st1 disabled st2.
  split; [vm_compute; reflexivity|]. split; [vm_compute; reflexivity|].
  refine (stopped_scheduler_blocks false Sample.windows_test
            (Some (Sample.settings "/src:/dst")) st2 (mkWorld ∅ [])
            (mkScheduler [] false) _ _).
  - vm_compute. reflexivity.
  - reflexivity.
Defined.

Lemma nested_line_stored_witness :
  exists st' w',
    configure_line false Sample.windows_test (Sample.plugin false 0 "" [])
                   "/src:/src/out" (mkWorld ∅ [])
    = Return st' w' /\
    Dict.get "/src" (_dirconf st') = Some (Some (PurePath.of_str "/src/out")) /\
    scheduled st' = scheduled (Sample.plugin false 0 "" []).
Proof.
  refine (nested_line_stored false Sample.windows_test
            (Sample.plugin false 0 "" []) "/src:/src/out"
            "/src" "/src/out" [] (mkWorld ∅ []) _ _ _).
  - discriminate.
  - reflexivity.
  - vm_compute. reflexivity.
Defined.

Lemma engine_never_creates_witness :
  absent
    (run Sample.video Sample.subtitle Sample.search PyStr.lower_ascii
         (Sample.plugin true 0 "" [("/src", Some (Sample.P "/dst"))])
         [Op_sync_all;
          Op_event Text_create "/src" "/src/a/movie.mkv";
          Op_external (fun m => <[Sample.P "/src/a/new.srt" := File []]> m);
          Op_event Text_move "/src" "/src/a/new.srt"]
         (mkWorld Sample.tree []))
    (Sample.P "/dst/a/movie.mkv").
Proof.
  refine (engine_never_creates Sample.video Sample.subtitle Sample.search
            PyStr.lower_ascii
            (Sample.plugin true 0 "" [("/src", Some (Sample.P "/dst"))])
            (Sample.P "/dst/a/movie.mkv") _ (mkWorld Sample.tree []) _ _).
  - repeat constructor. intros m Hm. rewrite lookup_insert_ne; [exact Hm|].
    vm_compute. discriminate.
  - vm_compute. reflexivity.
Defined.

Lemma delete_event_outcome_witness :
  let st := Sample.plugin true 0 "" [("/src", Some (Sample.P "/dst"))] in
  let w' := world_of (event_handler Sample.video Sample.subtitle Sample.search
                        PyStr.lower_ascii st Text_delete "/src" "/src/a/poster.jpg"
                        (mkWorld Sample.tree_with_copy [])) in
  (forall target_dir,
      In (Some target_dir) (Dict.values (_dirconf st)) ->
      FS.exists_ (fs w') (PurePath.joinpath target_dir (mkPath Relative ["a"; "poster.jpg"]))
      = false) \/
  (exists e, In (System_message (Msg_event_failed "/src/a/poster.jpg" Text_delete e))
                (out w')).
Proof.
  intros st.
  refine (delete_event_outcome Sample.video Sample.subtitle Sample.search
            PyStr.lower_ascii st "/src" "/src/a/poster.jpg"
            (mkPath Relative ["a"; "poster.jpg"]) (mkWorld Sample.tree_with_copy []) _ _ _).
  - vm_compute. reflexivity.
  - left. reflexivity.
  - left. reflexivity.
Defined.
